(** * Meteorological Stations API: authentication core and resource routes

    A shallow embedding of the Express application:
    - [middleware/auth.js]: [authenticateToken], [generateToken];
    - [routes/auth.js]: [POST /auth/login];
    - [routes/station.js], [routes/measurement.js]: the CRUD handlers;
    - [routes/status.js]: the status page;
    - [app.js]: the mounting of the routers.

    The libraries the application calls (jsonwebtoken, bcryptjs, the BSON
    ObjectId, JavaScript number conversions) are interfaces: type classes
    whose operations the handlers call.  Mongoose's document handling
    (casting, required validation, unique indexes, update and replace) is
    written out over an in-memory collection.

    Standing assumptions of the model:
    - the database is reachable and the indexes the schemas declare
      ([unique: true] on [code], the unique [_id]) are built;
    - Mongoose behaves as its 5.x and 6.x lines do (the lines the scripts'
      [useNewUrlParser] / [useUnifiedTopology] options belong to): with
      [overwrite: true] a body without operators replaces the document and
      is validated as a whole document;
    - jsonwebtoken refuses unsigned tokens and empty secrets;
    - the timestamps the schemas maintain ([createdAt], [updatedAt]) are
      not part of the documents; the fields of a document are the paths of
      its schema and [_id];
    - a request body is a JSON object; update documents that carry
      operators (keys starting with '$') are marked and not interpreted. *)

From Stdlib Require Import ZArith Ascii String DecimalString DecimalN.
From stdpp Require Import base tactics option list strings gmap.

Local Open Scope Z_scope.

(* ===================================================================== *)
(** ** JavaScript strings *)
(* ===================================================================== *)

Definition space : ascii := " "%char.

(** [s.split(' ')]: cuts at every single space; adjacent spaces give empty
    segments and the result always has at least one segment. *)
Fixpoint split_space (s : string) : list string :=
  match s with
  | EmptyString => [""%string]
  | String c r =>
      if Ascii.eqb c space then ""%string :: split_space r
      else match split_space r with
           | h :: t => String c h :: t
           | [] => [String c ""]
           end
  end.

Fixpoint no_space (s : string) : Prop :=
  match s with
  | EmptyString => True
  | String c r => c <> space /\ no_space r
  end.

(** JavaScript truthiness of a possibly undefined string. *)
Definition truthy (v : option string) : bool :=
  match v with
  | None => false
  | Some s => negb (String.eqb s "")
  end.

(* ===================================================================== *)
(** ** Library interfaces *)
(* ===================================================================== *)

(** JavaScript numbers and the conversions Mongoose's casts use. *)
Class JsNumber := {
  number : Type;
  String_of_number : number -> string;          (* String(n) *)
  Number_of_string : string -> option number;   (* Number(s); None is NaN *)
  Number_of_bool : bool -> number;              (* Number(b) *)
  toISOString : Z -> string;                    (* new Date(ms).toISOString() *)
}.

(** BSON object identifiers. *)
Class Bson := {
  ObjectId : Type;
  ObjectId_eq_dec :: EqDecision ObjectId;
  ObjectId_of_string : string -> option ObjectId;  (* new ObjectId(s); None when it throws *)
  toHexString : ObjectId -> string;
}.

(** The payload of a session token: the private claim [userId] (a string
    when present) and the registered claims [iat], [nbf], [exp]
    (NumericDate, seconds).  A payload whose registered claims are not
    numbers does not decode. *)
Record jwt_payload := {
  userId : option string;
  iat : option Z;
  nbf : option Z;
  exp : option Z;
}.

#[global] Instance jwt_payload_eq_dec : EqDecision jwt_payload.
Proof. solve_decision. Defined.

(** A compact JWS after decoding: the header's algorithm, the payload, the
    text covered by the signature and the signature itself. *)
Record jws := {
  alg : string;
  payload : jwt_payload;
  secured_input : string;
  signature : string;
}.

(** jws / jsonwebtoken primitives. *)
Class Jws := {
  (* base64url(header) + '.' + base64url(payload) *)
  jws_secured_input : string -> jwt_payload -> string;
  (* parsing of a compact token; None for 'jwt malformed' / 'invalid token' *)
  jws_decode : string -> option jws;
  (* base64url HMAC of a message under an algorithm and a key *)
  hmac : string -> string -> string -> string;
}.

(** bcryptjs: comparison of a clear password with a stored hash. *)
Class Bcrypt := {
  bcrypt_check : string -> string -> bool;
}.

(* ===================================================================== *)
(** ** JSON values of request bodies *)
(* ===================================================================== *)

(** [JOther] stands for arrays and nested objects, whose casts to the
    types of the schemas fail. *)
Inductive json `{JsNumber} :=
  | JNull
  | JBool (b : bool)
  | JNum (n : number)
  | JStr (s : string)
  | JOther.

(** [typeof v] for a possibly undefined JSON value. *)
Definition typeof `{JsNumber} (v : option json) : string :=
  match v with
  | None => "undefined"
  | Some JNull => "object"
  | Some (JBool _) => "boolean"
  | Some (JNum _) => "number"
  | Some (JStr _) => "string"
  | Some JOther => "object"
  end.

(* ===================================================================== *)
(** ** jsonwebtoken *)
(* ===================================================================== *)

Inductive jwt_error :=
  | JsonWebTokenError (message : string)
  | NotBeforeError
  | TokenExpiredError.

(** A secret read from the environment is usable when it is a non-empty
    string. *)
Definition usable_secret (secret : option string) : option string :=
  match secret with
  | Some s => if decide (s = ""%string) then None else Some s
  | None => None
  end.

Definition hs_algorithms : list string := ["HS256"; "HS384"; "HS512"]%string.

Section Jsonwebtoken.
Context `{Jws}.

(** [jws.verify]: the signature is the HMAC of the secured input. *)
Definition jws_verify (t : jws) (secret : string) : bool :=
  bool_decide (signature t = hmac (alg t) secret (secured_input t)).

(** [jwt.verify(token, secret)] with no options, at clock [now] (ms), as
    jsonwebtoken 9 does it: the token must decode and carry a signature, a
    secret must be given, the algorithm must be one of the HMAC family (the
    default for a secret that is not a PEM key), the signature must verify,
    and the registered claims [nbf] and [exp], when present, are checked
    against the clock in seconds. *)
Definition jwt_verify (token : string) (secret : option string) (now : Z)
  : jwt_error + jwt_payload :=
  let clockTimestamp := now / 1000 in
  match jws_decode token with
  | None => inl (JsonWebTokenError "invalid token")
  | Some t =>
      match usable_secret secret with
      | None => inl (JsonWebTokenError "secret or public key must be provided")
      | Some key =>
          if decide (signature t = ""%string)
          then inl (JsonWebTokenError "jwt signature is required")
          else if negb (bool_decide (alg t ∈ hs_algorithms))
          then inl (JsonWebTokenError "invalid algorithm")
          else if negb (jws_verify t key)
          then inl (JsonWebTokenError "invalid signature")
          else if match nbf (payload t) with
                  | Some n => n >? clockTimestamp
                  | None => false
                  end
          then inl NotBeforeError
          else if match exp (payload t) with
                  | Some e => clockTimestamp >=? e
                  | None => false
                  end
          then inl TokenExpiredError
          else inr (payload t)
      end
  end.

(** ms('24h') / 1000 *)
Definition expiresIn_24h : Z := 24 * 60 * 60.

(** [jwt.sign({ userId }, secret, { expiresIn: '24h' })] at clock [now]. *)
Definition jwt_sign (uid : string) (secret : option string) (now : Z)
  : jwt_error + string :=
  match usable_secret secret with
  | None => inl (JsonWebTokenError "secretOrPrivateKey must have a value")
  | Some key =>
      let timestamp := now / 1000 in
      let p := {| userId := Some uid; iat := Some timestamp; nbf := None;
                  exp := Some (timestamp + expiresIn_24h) |} in
      let input := jws_secured_input "HS256" p in
      inr (input +:+ "." +:+ hmac "HS256" key input)
  end.
End Jsonwebtoken.

(* ===================================================================== *)
(** ** Mongoose: schemas, casting, validation, collections *)
(* ===================================================================== *)

Inductive kind := KString | KNumber | KObjectId.

(** One path of a schema: [{ type, required, unique }]. *)
Record path_spec := {
  p_name : string;
  p_kind : kind;
  p_required : bool;
  p_unique : bool;
}.

(** Errors raised by Mongoose or by the MongoDB server; [error.message] is
    kept symbolic. *)
Inductive mongoose_error :=
  | ValidationError (paths : list string)  (* failed casts and validators of a document *)
  | CastError (path : string)              (* failed cast of a query or of an update *)
  | DuplicateKey                           (* E11000, a unique index refuses the write *)
  | ImmutableField                         (* the server refuses a change of _id *)
  | MissingId.                             (* 'document must have an _id before saving' *)

(** Result of an awaited query: a thrown error or a value. *)
Inductive awaited (A : Type) :=
  | Threw (e : mongoose_error)
  | Returned (a : A).
Arguments Threw {A} e.
Arguments Returned {A} a.

Definition starts_with_dollar (k : string) : bool :=
  match k with
  | String c _ => Ascii.eqb c "$"%char
  | EmptyString => false
  end.

Section Mongoose.
Context `{JsNumber} `{EqDecision number} `{Bson}.

Inductive value :=
  | VNull
  | VStr (s : string)
  | VNum (n : number)
  | VId (o : ObjectId).

#[global] Instance value_eq_dec : EqDecision value.
Proof. solve_decision. Defined.

(** A stored document: its [_id] and the values of its schema paths. *)
Record document := {
  _id : ObjectId;
  fields : gmap string value;
}.

#[global] Instance document_eq_dec : EqDecision document.
Proof. solve_decision. Defined.

(** SchemaType casts; [None] is a failed cast. *)
Definition castString (j : json) : option value :=
  match j with
  | JNull => Some VNull
  | JBool b => Some (VStr (if b then "true" else "false"))
  | JNum n => Some (VStr (String_of_number n))
  | JStr s => Some (VStr s)
  | JOther => None
  end.

Definition castNumber (j : json) : option value :=
  match j with
  | JNull => Some VNull
  | JBool b => Some (VNum (Number_of_bool b))
  | JNum n => Some (VNum n)
  | JStr s => if decide (s = ""%string) then Some VNull
              else VNum <$> Number_of_string s
  | JOther => None
  end.

Definition castObjectId (j : json) : option value :=
  match j with
  | JNull => Some VNull
  | JBool b => VId <$> ObjectId_of_string (if b then "true" else "false")
  | JNum n => VId <$> ObjectId_of_string (String_of_number n)
  | JStr s => VId <$> ObjectId_of_string s
  | JOther => None
  end.

Definition cast (k : kind) (j : json) : option value :=
  match k with
  | KString => castString j
  | KNumber => castNumber j
  | KObjectId => castObjectId j
  end.

(** The [required] validator: null, undefined and, for strings, the empty
    string are refused. *)
Definition checkRequired (v : value) : bool :=
  match v with
  | VNull => false
  | VStr s => negb (String.eqb s "")
  | _ => true
  end.

(** Does path [p] of a document built from [body] fail validation? *)
Definition path_invalid (body : gmap string json) (p : path_spec) : bool :=
  match body !! p_name p with
  | None => p_required p
  | Some j =>
      match cast (p_kind p) j with
      | None => true
      | Some v => p_required p && negb (checkRequired v)
      end
  end.

Definition invalid_paths (schema : list path_spec) (body : gmap string json)
  : list string :=
  p_name <$> List.filter (path_invalid body) schema.

(** The values a document built from [body] holds (strict mode: only the
    schema's paths, only successful casts). *)
Fixpoint cast_fields (schema : list path_spec) (body : gmap string json)
  : gmap string value :=
  match schema with
  | [] => ∅
  | p :: rest =>
      match body !! p_name p ≫= cast (p_kind p) with
      | Some v => <[p_name p := v]> (cast_fields rest body)
      | None => cast_fields rest body
      end
  end.

(** The [_id] key of a body after its cast. *)
Inductive id_choice :=
  | IdAbsent
  | IdBad
  | IdNull
  | IdIs (o : ObjectId).

Definition body_id (body : gmap string json) : id_choice :=
  match body !! "_id"%string with
  | None => IdAbsent
  | Some j =>
      match castObjectId j with
      | Some (VId o) => IdIs o
      | Some _ => IdNull
      | None => IdBad
      end
  end.

Definition findById_doc (coll : list document) (id : ObjectId) : option document :=
  List.find (fun d => bool_decide (_id d = id)) coll.

(** A unique index refuses [d] when another document holds the same value
    at a unique path. *)
Definition unique_clash (schema : list path_spec) (coll : list document)
    (d : document) : bool :=
  existsb (fun p =>
    p_unique p &&
    existsb (fun d' =>
      negb (bool_decide (_id d' = _id d)) &&
      bool_decide (fields d' !! p_name p = fields d !! p_name p)) coll) schema.

(** [new Model(body)] followed by [save()]; [fresh] is the identifier the
    driver generates when the body brings none. *)
Definition Model_save (schema : list path_spec) (coll : list document)
    (fresh : ObjectId) (body : gmap string json)
  : awaited (document * list document) :=
  let id := body_id body in
  let bad := (match id with IdBad => ["_id"%string] | _ => [] end)
               ++ invalid_paths schema body in
  match bad with
  | _ :: _ => Threw (ValidationError bad)
  | [] =>
      match (match id with IdAbsent => Some fresh | IdIs o => Some o | _ => None end) with
      | Some o =>
          let d := {| _id := o; fields := cast_fields schema body |} in
          match findById_doc coll o with
          | Some _ => Threw DuplicateKey
          | None =>
              if unique_clash schema coll d then Threw DuplicateKey
              else Returned (d, coll ++ [d])
          end
      | None => Threw MissingId
      end
  end.

(** [Model.findById(id)] with [id] a string. *)
Definition Model_findById (coll : list document) (id : string)
  : awaited (option document) :=
  match ObjectId_of_string id with
  | None => Threw (CastError "_id")
  | Some o => Returned (findById_doc coll o)
  end.

(** Replacement of the document with identifier [o]. *)
Definition store (coll : list document) (d : document) : list document :=
  (fun d' => if bool_decide (_id d' = _id d) then d else d') <$> coll.

Definition has_dollar_keys (body : gmap string json) : bool :=
  existsb starts_with_dollar (elements (dom body)).

(** The cast of an update document without operators: every key that is a
    schema path is cast, the others are dropped (strict mode); [_id] is
    read by [body_id].  [inl k] is a failed cast at key [k]. *)
Fixpoint castUpdate (schema : list path_spec) (body : gmap string json)
  : string + gmap string value :=
  match schema with
  | [] => inr ∅
  | p :: rest =>
      match body !! p_name p with
      | None => castUpdate rest body
      | Some j =>
          match cast (p_kind p) j with
          | None => inl (p_name p)
          | Some v =>
              match castUpdate rest body with
              | inl k => inl k
              | inr m => inr (<[p_name p := v]> m)
              end
          end
      end
  end.

(** Update validators run on the paths of [$set] only. *)
Definition update_invalid_paths (schema : list path_spec)
    (set : gmap string value) : list string :=
  p_name <$> List.filter (fun p =>
    match set !! p_name p with
    | Some v => p_required p && negb (checkRequired v)
    | None => false
    end) schema.

(** Outcome of [findByIdAndUpdate]; [Operators] marks an update document
    with operator keys, whose semantics is the database's and is not
    part of this development. *)
Inductive updated :=
  | UThrew (e : mongoose_error)
  | UNull
  | UDoc (d : document) (coll : list document)
  | Operators.

(** The write of [findOneAndUpdate] / [findOneAndReplace] on the server:
    no match gives null; a change of [_id] and a clash on a unique index
    are refused; otherwise the fields become [change] of the old ones. *)
Definition write_back (schema : list path_spec) (coll : list document)
    (o : ObjectId) (new_id : id_choice)
    (change : gmap string value -> gmap string value) : updated :=
  match findById_doc coll o with
  | None => UNull
  | Some d =>
      let keeps_id :=
        match new_id with
        | IdAbsent => true
        | IdIs o' => bool_decide (o' = o)
        | _ => false
        end in
      if keeps_id then
        let d' := {| _id := o; fields := change (fields d) |} in
        if unique_clash schema coll d' then UThrew DuplicateKey
        else UDoc d' (store coll d')
      else UThrew ImmutableField
  end.

(** [Model.findByIdAndUpdate(id, body, { new: true, runValidators: true })]:
    a body without operators is wrapped in [$set]; update validators run
    on the paths it sets. *)
Definition Model_findByIdAndUpdate (schema : list path_spec)
    (coll : list document) (id : string) (body : gmap string json) : updated :=
  if has_dollar_keys body then Operators
  else
    match ObjectId_of_string id with
    | None => UThrew (CastError "_id")
    | Some o =>
        match body_id body with
        | IdBad => UThrew (CastError "_id")
        | new_id =>
            match castUpdate schema body with
            | inl k => UThrew (CastError k)
            | inr set =>
                match update_invalid_paths schema set with
                | _ :: _ as bad => UThrew (ValidationError bad)
                | [] => write_back schema coll o new_id (fun old => set ∪ old)
                end
            end
        end
    end.

(** [Model.findByIdAndUpdate(id, body, { new: true, runValidators: true,
    overwrite: true })]: a body without operators becomes a document of
    its own ([new Model(body, null, true)], no generated [_id]), is
    validated as a whole and replaces the stored one. *)
Definition Model_findByIdAndOverwrite (schema : list path_spec)
    (coll : list document) (id : string) (body : gmap string json) : updated :=
  if has_dollar_keys body then Operators
  else
    match ObjectId_of_string id with
    | None => UThrew (CastError "_id")
    | Some o =>
        let new_id := body_id body in
        let bad := (match new_id with IdBad => ["_id"%string] | _ => [] end)
                     ++ invalid_paths schema body in
        match bad with
        | _ :: _ => UThrew (ValidationError bad)
        | [] => write_back schema coll o new_id (fun _ => cast_fields schema body)
        end
    end.

(** [Model.findByIdAndDelete(id)]. *)
Definition Model_findByIdAndDelete (coll : list document) (id : string)
  : awaited (option (document * list document)) :=
  match ObjectId_of_string id with
  | None => Threw (CastError "_id")
  | Some o =>
      match findById_doc coll o with
      | None => Returned None
      | Some d =>
          Returned (Some (d, List.filter (fun d' => negb (bool_decide (_id d' = o))) coll))
      end
  end.

(** [Model.find(filter)] for a filter of equalities on cast values. *)
Definition Model_find (coll : list document) (filter : list (string * value))
  : list document :=
  List.filter (fun d =>
    forallb (fun kv => bool_decide (fields d !! fst kv = Some (snd kv))) filter) coll.
End Mongoose.

(* ===================================================================== *)
(** ** The schemas: models/station.js, models/measurement.js *)
(* ===================================================================== *)

Definition stationSchema : list path_spec := [
  {| p_name := "name"; p_kind := KString; p_required := true; p_unique := false |};
  {| p_name := "long"; p_kind := KNumber; p_required := true; p_unique := false |};
  {| p_name := "lat";  p_kind := KNumber; p_required := true; p_unique := false |};
  {| p_name := "type"; p_kind := KString; p_required := true; p_unique := false |};
  {| p_name := "code"; p_kind := KString; p_required := true; p_unique := true |}
]%string.

(** The [code] path of [stationSchema]. *)
Definition code_path : path_spec :=
  {| p_name := "code"; p_kind := KString; p_required := true; p_unique := true |}.

(** [station_id] carries [ref: 'Station'], which only [populate] reads. *)
Definition measurementSchema : list path_spec := [
  {| p_name := "value"; p_kind := KNumber; p_required := true; p_unique := false |};
  {| p_name := "station_id"; p_kind := KObjectId; p_required := true; p_unique := false |}
]%string.

(* ===================================================================== *)
(** ** Express: requests, responses, the middleware stack *)
(* ===================================================================== *)

Inductive http_method := GET | POST | PUT | PATCH | DELETE | OTHER.

#[global] Instance http_method_eq_dec : EqDecision http_method.
Proof. solve_decision. Defined.

Definition dquote : string := String (ascii_of_nat 34) "".
Definition newline : string := String (ascii_of_nat 10) "".

Section Express.
Context `{JsNumber} `{EqDecision number} `{Bson} `{Jws} `{Bcrypt}.

(** A user record of the credential store. *)
Record User := {
  u_id : ObjectId;
  u_username : string;
  u_password : string;   (* the bcrypt hash *)
  u_role : string;
}.

Record DB := {
  users : list User;
  stations : list document;
  measurements : list document;
}.

(** What a handler reads from the process and the runtime. *)
Record world := {
  JWT_SECRET : option string;   (* process.env.JWT_SECRET *)
  NODE_ENV : option string;     (* process.env.NODE_ENV *)
  Date_now : Z;                 (* Date.now(), milliseconds *)
  uptime : N;                   (* Math.floor(process.uptime()) *)
  pkg_version : string;         (* require('../package.json').version *)
  newObjectId : ObjectId;       (* the identifier the driver would generate *)
}.

(** [path] is relative to the mount point, cut at '/'. *)
Record request := {
  method : http_method;
  path : list string;
  query : gmap string string;
  authorization : option string;   (* req.headers['authorization'] *)
  body : gmap string json;         (* req.body after bodyParser.json() *)
}.

Inductive message :=
  | Text (s : string)
  | MongooseMessage (e : mongoose_error).

(** A measurement with its station reference resolved by [populate]. *)
Record populated := {
  pop_doc : document;
  pop_station : option document;
}.

Inductive res_body :=
  | ErrorJson (m : message)                       (* { error: m } *)
  | MessageJson (s : string)                      (* { message: s } *)
  | LoginJson (token : string) (uid : ObjectId)   (* { token, userId } *)
  | DocJson (d : document)
  | DocsJson (l : list document)
  | PopulatedJson (m : populated)
  | PopulatedsJson (l : list populated)
  | Html (page : string)
  | DefaultNotFound.                              (* Express's final handler *)

Record response := {
  status : Z;
  res : res_body;
}.

(** What a middleware or handler does: it answers (possibly after a write
    to the store), or it calls [next()] with [req.user] set.  [Unmodelled]
    marks inputs whose treatment is left to the database's operator
    semantics. *)
Inductive outcome :=
  | Respond (r : response) (db : DB)
  | Next (user : option User)
  | Unmodelled.

Record layer := {
  l_name : string;
  l_match : request -> bool;
  l_handle : world -> DB -> request -> option User -> outcome;
}.

Inductive served :=
  | Sent (r : response) (db : DB)
  | FellThrough
  | OutOfModel.

(** The router runs its stack in order; the first component is the list
    of layers it invoked. *)
Fixpoint dispatch (stack : list layer) (w : world) (db : DB) (req : request)
    (user : option User) : list string * served :=
  match stack with
  | [] => ([], FellThrough)
  | l :: rest =>
      if l_match l req then
        match l_handle l w db req user with
        | Respond r db' => ([l_name l], Sent r db')
        | Next user' =>
            let '(t, s) := dispatch rest w db req user' in (l_name l :: t, s)
        | Unmodelled => ([l_name l], OutOfModel)
        end
      else dispatch rest w db req user
  end.

Definition route (m : http_method) (segments : nat) (req : request) : bool :=
  bool_decide (method req = m) && bool_decide (length (path req) = segments).

(** [req.params.id] of a route '/:id'. *)
Definition params_id (req : request) : string :=
  match path req with
  | id :: _ => id
  | [] => ""
  end.

Definition json_error (code : Z) (m : message) : response :=
  {| status := code; res := ErrorJson m |}.

(* ------------------------------------------------------------------- *)
(** *** middleware/auth.js *)
(* ------------------------------------------------------------------- *)

(** [User.findById(id)] for the [userId] of a decoded payload. *)
Definition User_findById (db : DB) (id : option string) : awaited (option User) :=
  match id with
  | None => Returned None
  | Some s =>
      match ObjectId_of_string s with
      | None => Threw (CastError "_id")
      | Some o => Returned (List.find (fun u => bool_decide (u_id u = o)) (users db))
      end
  end.

(** [authHeader && authHeader.split(' ')[1]] *)
Definition header_token (authHeader : option string) : option string :=
  match authHeader with
  | None => None
  | Some h => if truthy (Some h) then split_space h !! 1%nat else Some h
  end.

Definition authenticateToken (w : world) (db : DB) (req : request)
    (_ : option User) : outcome :=
  let authHeader := authorization req in
  let token := header_token authHeader in
  if negb (truthy token) then
    Respond (json_error 401 (Text "Access token required")) db
  else
    match jwt_verify (default ""%string token) (JWT_SECRET w) (Date_now w) with
    | inl _ => Respond (json_error 401 (Text "Invalid token")) db
    | inr decoded =>
        match User_findById db (userId decoded) with
        | Threw _ => Respond (json_error 401 (Text "Invalid token")) db
        | Returned None => Respond (json_error 401 (Text "User not found")) db
        | Returned (Some user) => Next (Some user)
        end
    end.

Definition generateToken (w : world) (uid : ObjectId) : jwt_error + string :=
  jwt_sign (toHexString uid) (JWT_SECRET w) (Date_now w).

(* ------------------------------------------------------------------- *)
(** *** routes/auth.js *)
(* ------------------------------------------------------------------- *)

(** [User.findOne({ username })]: the filter value is cast to a string;
    a nested object may carry query operators and is left out. *)
Definition User_findOne (db : DB) (name : option json) : option (option User) :=
  let named s := Some (List.find (fun u => String.eqb (u_username u) s) (users db)) in
  match name with
  | None | Some JNull => Some None
  | Some (JStr s) => named s
  | Some (JNum n) => named (String_of_number n)
  | Some (JBool b) => named (if b then "true" else "false")%string
  | Some JOther => None
  end.

(** [bcrypt.compare(s, hash)]: rejects when [s] is not a string. *)
Definition bcrypt_compare (s : option json) (hash : string) : string + bool :=
  match s with
  | Some (JStr p) => inr (bcrypt_check p hash)
  | _ => inl ("Illegal arguments: " +:+ typeof s +:+ ", string")
  end.

Definition jwt_message (e : jwt_error) : string :=
  match e with
  | JsonWebTokenError m => m
  | NotBeforeError => "jwt not active"
  | TokenExpiredError => "jwt expired"
  end.

Definition login (w : world) (db : DB) (req : request) (_ : option User) : outcome :=
  let username := body req !! "username"%string in
  let password := body req !! "password"%string in
  match User_findOne db username with
  | None => Unmodelled
  | Some None => Respond (json_error 401 (Text "Invalid credentials")) db
  | Some (Some user) =>
      match bcrypt_compare password (u_password user) with
      | inl m => Respond (json_error 500 (Text m)) db
      | inr false => Respond (json_error 401 (Text "Invalid credentials")) db
      | inr true =>
          match generateToken w (u_id user) with
          | inl e => Respond (json_error 500 (Text (jwt_message e))) db
          | inr token =>
              Respond {| status := 200; res := LoginJson token (u_id user) |} db
          end
      end
  end.

Definition authRoutes : list layer := [
  {| l_name := "POST /login";
     l_match := fun req => bool_decide (method req = POST)
                           && bool_decide (path req = ["login"%string]);
     l_handle := login |}
].
(* ------------------------------------------------------------------- *)
(** *** routes/station.js *)
(* ------------------------------------------------------------------- *)

Definition with_stations (db : DB) (coll : list document) : DB :=
  {| users := users db; stations := coll; measurements := measurements db |}.

Definition with_measurements (db : DB) (coll : list document) : DB :=
  {| users := users db; stations := stations db; measurements := coll |}.

Definition caught (code : Z) (e : mongoose_error) (db : DB) : outcome :=
  Respond (json_error code (MongooseMessage e)) db.

(** [if (req.query.k) filter.k = req.query.k] for a string path. *)
Definition query_filter (req : request) (k : string) : list (string * value) :=
  match query req !! k with
  | Some q => if truthy (Some q) then [(k, VStr q)] else []
  | None => []
  end.

(** router.get('/') *)
Definition station_list (w : world) (db : DB) (req : request) (_ : option User)
  : outcome :=
  let filter := query_filter req "name" ++ query_filter req "type" in
  let stations := Model_find (stations db) filter in
  Respond {| status := 200; res := DocsJson stations |} db.

(** router.get('/:id') *)
Definition station_get (w : world) (db : DB) (req : request) (_ : option User)
  : outcome :=
  match Model_findById (stations db) (params_id req) with
  | Threw e => caught 500 e db
  | Returned None => Respond (json_error 404 (Text "Station not found")) db
  | Returned (Some station) => Respond {| status := 200; res := DocJson station |} db
  end.

(** router.post('/') *)
Definition station_post (w : world) (db : DB) (req : request) (_ : option User)
  : outcome :=
  match Model_save stationSchema (stations db) (newObjectId w) (body req) with
  | Threw e => caught 400 e db
  | Returned (saved, coll) =>
      Respond {| status := 201; res := DocJson saved |} (with_stations db coll)
  end.

(** router.put('/:id') *)
Definition station_put (w : world) (db : DB) (req : request) (_ : option User)
  : outcome :=
  match Model_findByIdAndOverwrite stationSchema (stations db) (params_id req) (body req) with
  | UThrew e => caught 400 e db
  | UNull => Respond (json_error 404 (Text "Station not found")) db
  | UDoc station coll =>
      Respond {| status := 200; res := DocJson station |} (with_stations db coll)
  | Operators => Unmodelled
  end.

(** router.patch('/:id') *)
Definition station_patch (w : world) (db : DB) (req : request) (_ : option User)
  : outcome :=
  match Model_findByIdAndUpdate stationSchema (stations db) (params_id req) (body req) with
  | UThrew e => caught 400 e db
  | UNull => Respond (json_error 404 (Text "Station not found")) db
  | UDoc station coll =>
      Respond {| status := 200; res := DocJson station |} (with_stations db coll)
  | Operators => Unmodelled
  end.

(** router.delete('/:id') *)
Definition station_delete (w : world) (db : DB) (req : request) (_ : option User)
  : outcome :=
  match Model_findByIdAndDelete (stations db) (params_id req) with
  | Threw e => caught 500 e db
  | Returned None => Respond (json_error 404 (Text "Station not found")) db
  | Returned (Some (_, coll)) =>
      Respond {| status := 200; res := MessageJson "Station deleted successfully" |}
              (with_stations db coll)
  end.

Definition stationRoutes : list layer := [
  {| l_name := "authenticateToken"; l_match := fun _ => true;
     l_handle := authenticateToken |};
  {| l_name := "GET /"; l_match := route GET 0; l_handle := station_list |};
  {| l_name := "GET /:id"; l_match := route GET 1; l_handle := station_get |};
  {| l_name := "POST /"; l_match := route POST 0; l_handle := station_post |};
  {| l_name := "PUT /:id"; l_match := route PUT 1; l_handle := station_put |};
  {| l_name := "PATCH /:id"; l_match := route PATCH 1; l_handle := station_patch |};
  {| l_name := "DELETE /:id"; l_match := route DELETE 1; l_handle := station_delete |}
]%string.

(* ------------------------------------------------------------------- *)
(** *** routes/measurement.js *)
(* ------------------------------------------------------------------- *)

(** [.populate('station_id')]: the reference becomes the station it names,
    or null when none does. *)
Definition populate (db : DB) (m : document) : populated :=
  {| pop_doc := m;
     pop_station :=
       match fields m !! "station_id"%string with
       | Some (VId o) => findById_doc (stations db) o
       | _ => None
       end |}.

(** router.get('/') *)
Definition measurement_list (w : world) (db : DB) (req : request) (_ : option User)
  : outcome :=
  match query req !! "station_id"%string with
  | Some q =>
      if truthy (Some q) then
        match ObjectId_of_string q with
        | None => caught 500 (CastError "station_id") db
        | Some o =>
            let found := Model_find (measurements db) [("station_id"%string, VId o)] in
            Respond {| status := 200; res := PopulatedsJson (populate db <$> found) |} db
        end
      else
        Respond {| status := 200;
                   res := PopulatedsJson (populate db <$> Model_find (measurements db) []) |} db
  | None =>
      Respond {| status := 200;
                 res := PopulatedsJson (populate db <$> Model_find (measurements db) []) |} db
  end.

(** router.get('/:id') *)
Definition measurement_get (w : world) (db : DB) (req : request) (_ : option User)
  : outcome :=
  match Model_findById (measurements db) (params_id req) with
  | Threw e => caught 500 e db
  | Returned None => Respond (json_error 404 (Text "Measurement not found")) db
  | Returned (Some m) =>
      Respond {| status := 200; res := PopulatedJson (populate db m) |} db
  end.

(** router.post('/') *)
Definition measurement_post (w : world) (db : DB) (req : request) (_ : option User)
  : outcome :=
  match Model_save measurementSchema (measurements db) (newObjectId w) (body req) with
  | Threw e => caught 400 e db
  | Returned (saved, coll) =>
      Respond {| status := 201; res := DocJson saved |} (with_measurements db coll)
  end.

(** router.put('/:id') *)
Definition measurement_put (w : world) (db : DB) (req : request) (_ : option User)
  : outcome :=
  match Model_findByIdAndOverwrite measurementSchema (measurements db)
          (params_id req) (body req) with
  | UThrew e => caught 400 e db
  | UNull => Respond (json_error 404 (Text "Measurement not found")) db
  | UDoc m coll =>
      Respond {| status := 200; res := DocJson m |} (with_measurements db coll)
  | Operators => Unmodelled
  end.

(** router.patch('/:id') *)
Definition measurement_patch (w : world) (db : DB) (req : request) (_ : option User)
  : outcome :=
  match Model_findByIdAndUpdate measurementSchema (measurements db)
          (params_id req) (body req) with
  | UThrew e => caught 400 e db
  | UNull => Respond (json_error 404 (Text "Measurement not found")) db
  | UDoc m coll =>
      Respond {| status := 200; res := DocJson m |} (with_measurements db coll)
  | Operators => Unmodelled
  end.

(** router.delete('/:id') *)
Definition measurement_delete (w : world) (db : DB) (req : request) (_ : option User)
  : outcome :=
  match Model_findByIdAndDelete (measurements db) (params_id req) with
  | Threw e => caught 500 e db
  | Returned None => Respond (json_error 404 (Text "Measurement not found")) db
  | Returned (Some (_, coll)) =>
      Respond {| status := 200; res := MessageJson "Measurement deleted successfully" |}
              (with_measurements db coll)
  end.

Definition measurementRoutes : list layer := [
  {| l_name := "authenticateToken"; l_match := fun _ => true;
     l_handle := authenticateToken |};
  {| l_name := "GET /"; l_match := route GET 0; l_handle := measurement_list |};
  {| l_name := "GET /:id"; l_match := route GET 1; l_handle := measurement_get |};
  {| l_name := "POST /"; l_match := route POST 0; l_handle := measurement_post |};
  {| l_name := "PUT /:id"; l_match := route PUT 1; l_handle := measurement_put |};
  {| l_name := "PATCH /:id"; l_match := route PATCH 1; l_handle := measurement_patch |};
  {| l_name := "DELETE /:id"; l_match := route DELETE 1; l_handle := measurement_delete |}
]%string.

(* ------------------------------------------------------------------- *)
(** *** routes/status.js *)
(* ------------------------------------------------------------------- *)

(** The object the handler builds before rendering. *)
Record status_snapshot := {
  s_status : string;
  s_version : string;
  s_uptime : N;
  s_environment : string;
  s_timestamp : string;
}.

Definition snapshot (w : world) : status_snapshot :=
  {| s_status := "ok";
     s_version := pkg_version w;
     s_uptime := uptime w;
     s_environment := if truthy (NODE_ENV w) then default ""%string (NODE_ENV w)
                      else "production"%string;
     s_timestamp := toISOString (Date_now w) |}.

Definition decimal (n : N) : string := NilEmpty.string_of_uint (N.to_uint n).

Definition class_attr (name : string) : string :=
  "class=" +:+ dquote +:+ name +:+ dquote.

Definition status_item (label content : string) : string :=
  "      <div " +:+ class_attr "status-item" +:+ ">" +:+ label +:+ ": "
    +:+ content +:+ "</div>".

(** The template literal of the handler, line by line. *)
Definition status_html (s : status_snapshot) : string :=
  String.concat newline [
    "";
    "  <!DOCTYPE html>";
    "  <html>";
    "  <head>";
    "    <title>Application Status</title>";
    "    <style>";
    "      body { font-family: Arial, sans-serif; margin: 40px; }";
    "      .status-card { border: 1px solid #ddd; border-radius: 8px; padding: 20px; max-width: 600px; }";
    "      .status-ok { color: green; }";
    "      .status-item { margin-bottom: 10px; }";
    "      h1 { color: #333; }";
    "    </style>";
    "  </head>";
    "  <body>";
    "    <div " +:+ class_attr "status-card" +:+ ">";
    "      <h1>Application Status</h1>";
    status_item "Status"
      ("<span " +:+ class_attr "status-ok" +:+ ">" +:+ s_status s +:+ "</span>");
    status_item "Version" (s_version s);
    status_item "Uptime" (decimal (s_uptime s) +:+ " seconds");
    status_item "Environment" (s_environment s);
    status_item "Last Updated" (s_timestamp s);
    "    </div>";
    "  </body>";
    "  </html>";
    "  "
  ]%string.

(** router.get('/') of the status router: [res.send(html)]. *)
Definition status_page (w : world) (db : DB) (req : request) (_ : option User)
  : outcome :=
  let status := snapshot w in
  let html := status_html status in
  Respond {| status := 200; res := Html html |} db.

Definition statusRoutes : list layer := [
  {| l_name := "GET /"; l_match := route GET 0; l_handle := status_page |}
]%string.

(* ------------------------------------------------------------------- *)
(** *** app.js *)
(* ------------------------------------------------------------------- *)

Definition mounted (req : request) (rest : list string) : request :=
  {| method := method req; path := rest; query := query req;
     authorization := authorization req; body := body req |}.

(** The routers mounted by [app.use(prefix, router)], in order. *)
Definition mounts : list (string * list layer) := [
  ("auth", authRoutes);
  ("stations", stationRoutes);
  ("measurements", measurementRoutes)
]%string.

Fixpoint app_use (ms : list (string * list layer)) (w : world) (db : DB)
    (req : request) : list string * served :=
  match ms with
  | [] => ([], FellThrough)
  | (prefix, router) :: rest =>
      match path req with
      | seg :: tail =>
          if String.eqb seg prefix then
            match dispatch router w db (mounted req tail) None with
            | (t, FellThrough) =>
                let '(t', s) := app_use rest w db req in (t ++ t', s)
            | r => r
            end
          else app_use rest w db req
      | [] => app_use rest w db req
      end
  end.

(** The application: the mounted routers, then the interactive
    documentation under '/api-docs' (a collaborator, left out), then
    Express's final handler. *)
Definition app (w : world) (db : DB) (req : request) : list string * served :=
  match app_use mounts w db req with
  | (t, FellThrough) =>
      match path req with
      | seg :: _ =>
          if String.eqb seg "api-docs" then (t, OutOfModel)
          else (t, Sent {| status := 404; res := DefaultNotFound |} db)
      | [] => (t, Sent {| status := 404; res := DefaultNotFound |} db)
      end
  | r => r
  end.
End Express.


(* ===================================================================== *)
(** ** Words of the specification *)
(* ===================================================================== *)

(** ASCII white space: space, tab, line feed, vertical tab, form feed,
    carriage return. *)
Definition is_whitespace (c : ascii) : bool :=
  let n := nat_of_ascii c in
  (n =? 32)%nat || (n =? 9)%nat || (n =? 10)%nat || (n =? 11)%nat
  || (n =? 12)%nat || (n =? 13)%nat.

(** The white-space-separated segments of a text: maximal runs of
    characters that are not white space.  [cur] is the run being read,
    reversed. *)
Fixpoint segments_from (cur : list ascii) (s : string) : list string :=
  let flush := match cur with
               | [] => []
               | _ => [string_of_list_ascii (rev cur)]
               end in
  match s with
  | EmptyString => flush
  | String c r =>
      if is_whitespace c then flush ++ segments_from [] r
      else segments_from (c :: cur) r
  end.

Definition whitespace_segments (s : string) : list string := segments_from [] s.

(** [page] shows the text [v] somewhere. *)
Definition contains (page v : string) : Prop :=
  exists pre post : string, page = pre +:+ v +:+ post.

(** A header that carries no token segment: it is absent, or has no space
    at all, or nothing stands between its first space and the next space
    or the end. *)
Definition no_token_segment (authHeader : option string) : Prop :=
  match authHeader with
  | None => True
  | Some h =>
      no_space h \/
      exists scheme rest, h = scheme +:+ " " +:+ rest /\ no_space scheme /\
        (rest = ""%string \/ exists r, rest = " " +:+ r)
  end.

Section Credential.
Context `{JsNumber} `{EqDecision number} `{Bson} `{Jws} `{Bcrypt}.

(** The token's signature verifies under the server's signing secret: the
    token decodes, a secret is configured, and the signature it carries is
    the HMAC of its secured input under that secret. *)
Definition signature_verifies (w : world) (tok : string) : Prop :=
  exists (t : jws) (key : string),
    jws_decode tok = Some t /\ usable_secret (JWT_SECRET w) = Some key /\
    signature t <> ""%string /\ alg t ∈ hs_algorithms /\
    signature t = hmac (alg t) key (secured_input t).

(** The token's expiry has not elapsed at the clock of [w]. *)
Definition expiry_not_elapsed (w : world) (tok : string) : Prop :=
  forall (t : jws) (e : Z),
    jws_decode tok = Some t -> exp (payload t) = Some e -> Date_now w / 1000 < e.

(** The token's not-before time has been reached at the clock of [w]. *)
Definition not_before_reached (w : world) (tok : string) : Prop :=
  forall (t : jws) (n : Z),
    jws_decode tok = Some t -> nbf (payload t) = Some n -> n <= Date_now w / 1000.

(** The user identifier the token encodes resolves to the stored user [u]. *)
Definition user_resolves (db : DB) (tok : string) (u : User) : Prop :=
  exists (t : jws) (s : string) (o : ObjectId),
    jws_decode tok = Some t /\ userId (payload t) = Some s /\
    ObjectId_of_string s = Some o /\
    List.find (fun u' => bool_decide (u_id u' = o)) (users db) = Some u.

(** The two causes of a failed login. *)
Definition no_such_user (db : DB) (req : request) : Prop :=
  User_findOne db (body req !! "username"%string) = Some None.

Definition wrong_password (db : DB) (req : request) : Prop :=
  exists user : User,
    User_findOne db (body req !! "username"%string) = Some (Some user) /\
    bcrypt_compare (body req !! "password"%string) (u_password user) = inr false.

(** A machine-readable body is one sent with [res.json]. *)
Definition machine_readable (b : res_body) : Prop :=
  match b with
  | Html _ | DefaultNotFound => False
  | _ => True
  end.

End Credential.

(* ===================================================================== *)
(** ** An instance of the library interfaces, for closed examples *)
(* ===================================================================== *)

Module Toy.

Definition is_hex (c : ascii) : bool :=
  let n := nat_of_ascii c in
  ((48 <=? n) && (n <=? 57))%nat || ((97 <=? n) && (n <=? 102))%nat.

Fixpoint all_hex (s : string) : bool :=
  match s with
  | EmptyString => true
  | String c r => is_hex c && all_hex r
  end.

#[global] Instance numbers : JsNumber := {|
  number := Z;
  String_of_number := fun z => NilEmpty.string_of_int (Z.to_int z);
  Number_of_string := fun _ => None;
  Number_of_bool := fun b => if b then 1 else 0;
  toISOString := fun _ => "1970-01-01T00:00:00.000Z"%string;
|}.

(** Identifiers are their 24 hexadecimal digits. *)
#[global] Instance bson : Bson := {|
  ObjectId := string;
  ObjectId_of_string := fun s =>
    if (String.length s =? 24)%nat && all_hex s then Some s else None;
  toHexString := fun s => s;
|}.

Definition secret : string := "s3cret".
Definition admin_id : string := "64b000000000000000000001".

Definition mac (a key msg : string) : string :=
  "mac(" +:+ a +:+ "," +:+ key +:+ "," +:+ msg +:+ ")".

(** A token as [generateToken] issues it at second 1000. *)
Definition issued_payload : jwt_payload :=
  {| userId := Some admin_id; iat := Some 1000; nbf := None;
     exp := Some (1000 + 86400) |}.
Definition issued_input : string := "HS256.issued".
Definition issued_token : string :=
  issued_input +:+ "." +:+ mac "HS256" secret issued_input.

(** A token signed with the same secret that carries a not-before time. *)
Definition postdated_payload : jwt_payload :=
  {| userId := Some admin_id; iat := Some 1000; nbf := Some 5000;
     exp := Some 9000 |}.
Definition postdated_input : string := "HS256.postdated".
Definition postdated_token : string :=
  postdated_input +:+ "." +:+ mac "HS256" secret postdated_input.

(** A codec that knows these two tokens. *)
#[global] Instance codec : Jws := {|
  jws_secured_input := fun a p =>
    if bool_decide (p = postdated_payload) then postdated_input else issued_input;
  jws_decode := fun t =>
    if String.eqb t issued_token then
      Some {| alg := "HS256"; payload := issued_payload;
              secured_input := issued_input;
              signature := mac "HS256" secret issued_input |}
    else if String.eqb t postdated_token then
      Some {| alg := "HS256"; payload := postdated_payload;
              secured_input := postdated_input;
              signature := mac "HS256" secret postdated_input |}
    else None;
  hmac := mac;
|}.

#[global] Instance bcrypt : Bcrypt := {|
  bcrypt_check := fun p h => String.eqb h ("bcrypt:" +:+ p);
|}.

Definition admin : User :=
  {| u_id := admin_id; u_username := "admin"; u_password := "bcrypt:admin123";
     u_role := "admin" |}.

Definition station1 : document :=
  {| _id := "64b0000000000000000000a1"%string;
     fields := {[ "name"%string := VStr "North";
                  "long"%string := VNum 10;
                  "lat"%string := VNum 20;
                  "type"%string := VStr "manual";
                  "code"%string := VStr "N1" ]} |}.

Definition db0 : DB :=
  {| users := [admin]; stations := [station1]; measurements := [] |}.

Definition world_at (ms : Z) : world :=
  {| JWT_SECRET := Some secret; NODE_ENV := None; Date_now := ms;
     uptime := 42; pkg_version := "1.0.0";
     newObjectId := "64b0000000000000000000ff"%string |}.

Definition request_of (m : http_method) (p : list string)
    (auth : option string) (b : gmap string json) : request :=
  {| method := m; path := p; query := ∅; authorization := auth; body := b |}.

(** Request bodies. *)
Definition south_body : gmap string json :=
  {[ "name"%string := JStr "South"; "long"%string := JNum 30;
     "lat"%string := JNum 40; "type"%string := JStr "automatic";
     "code"%string := JStr "S1" ]}.

Definition clashing_body : gmap string json :=
  {[ "name"%string := JStr "Other"; "long"%string := JNum 1;
     "lat"%string := JNum 2; "type"%string := JStr "automatic";
     "code"%string := JStr "N1" ]}.

Definition rename_body : gmap string json :=
  {[ "name"%string := JStr "Northern" ]}.

Definition dangling_body : gmap string json :=
  {[ "value"%string := JNum 21;
     "station_id"%string := JStr "64b0000000000000000000b2" ]}.

End Toy.


(* ===================================================================== *)
(** ** tools/createAdmin.js *)
(* ===================================================================== *)

(** bcryptjs: [bcrypt.hash(s, rounds)], with the salt the library draws. *)
Class BcryptHash := {
  bcrypt_hash : string -> Z -> string;
}.

Section CreateAdmin.
Context `{JsNumber} `{EqDecision number} `{Bson} `{BcryptHash}.

(** What the script reads from the environment, and the identifier the
    driver generates for the new document. *)
Record admin_env := {
  ADMIN_USERNAME : option string;   (* process.env.ADMIN_USERNAME *)
  ADMIN_PASSWORD : option string;   (* process.env.ADMIN_PASSWORD *)
  generated_id : ObjectId;
}.

(** [v || d] for a possibly undefined string [v]. *)
Definition or_else (v : option string) (d : string) : string :=
  if truthy v then default d v else d.

(** [userSchema.pre('save', ...)]: the password of a new document counts
    as modified and is replaced by its hash with 10 rounds. *)
Definition pre_save (u : User) : User :=
  {| u_id := u_id u; u_username := u_username u;
     u_password := bcrypt_hash (u_password u) 10; u_role := u_role u |}.

Definition with_users (db : DB) (l : list User) : DB :=
  {| users := l; stations := stations db; measurements := measurements db |}.

(** The end of the script: [process.exit(code)] after one line of log. *)
Inductive exited :=
  | Exit (code : Z) (log : string) (db : DB).

(** [createAdminUser()].  The new document always passes validation (its
    username and password are non-empty strings, its role is in the
    enumeration); the insert fails only on a clash of [_id]. *)
Definition createAdminUser (e : admin_env) (db : DB) : exited :=
  let name := or_else (ADMIN_USERNAME e) "admin" in
  let existingAdmin :=
    List.find (fun u => String.eqb (u_username u) name) (users db) in
  match existingAdmin with
  | Some _ => Exit 0 "Admin user already exists" db
  | None =>
      let adminUser :=
        {| u_id := generated_id e; u_username := name;
           u_password := or_else (ADMIN_PASSWORD e) "admin123";
           u_role := "admin" |} in
      match List.find (fun u => bool_decide (u_id u = generated_id e)) (users db) with
      | Some _ => Exit 1 "Error creating admin user:" db
      | None =>
          Exit 0 "Admin user created successfully"
               (with_users db (users db ++ [pre_save adminUser]))
      end
  end.

End CreateAdmin.

(* ===================================================================== *)
(** ** tools/seed.js *)
(* ===================================================================== *)

Section Seed.
Context `{JsNumber} `{EqDecision number} `{Bson}.

(** What a run of the script draws: the results of [Math.random()] after
    the arithmetic and formatting the script applies to them, and the
    identifiers the driver generates. *)
Record seed_draws := {
  draw_long : nat -> string;           (* (Math.random() * 360 - 180).toFixed(4), station i *)
  draw_lat : nat -> string;            (* (Math.random() * 180 - 90).toFixed(4), station i *)
  draw_automatic : nat -> bool;        (* Math.random() < 0.5, station i *)
  draw_count : nat;                    (* Math.floor(Math.random() * 1000) *)
  draw_value : nat -> nat -> number;   (* parseFloat((Math.random() * 100).toFixed(2)) *)
  station_oid : nat -> ObjectId;
  measurement_oid : nat -> nat -> ObjectId;
}.

Definition stationCount : nat := 50.

(** The object pushed to [stationsData] at iteration [i]. *)
Definition station_data (r : seed_draws) (i : nat) : gmap string json :=
  <["name"%string := JStr ("Station " +:+ decimal (N.of_nat (i + 1)))]>
  (<["long"%string := JStr (draw_long r i)]>
  (<["lat"%string := JStr (draw_lat r i)]>
  (<["type"%string := JStr (if draw_automatic r i then "automatic" else "manual")]>
  (<["code"%string := JStr ("STATION_CODE_" +:+ decimal (N.of_nat (i + 1)))]> ∅)))).

(** [new Model(body)] and its validation, with [fresh] the generated
    identifier. *)
Definition build (schema : list path_spec) (fresh : ObjectId)
    (body : gmap string json) : mongoose_error + document :=
  let id := body_id body in
  let bad := (match id with IdBad => ["_id"%string] | _ => [] end)
               ++ invalid_paths schema body in
  match bad with
  | _ :: _ => inl (ValidationError bad)
  | [] =>
      match id with
      | IdAbsent => inr {| _id := fresh; fields := cast_fields schema body |}
      | IdIs o => inr {| _id := o; fields := cast_fields schema body |}
      | _ => inl MissingId
      end
  end.

(** The position drawn for station [i] reads as a number. *)
Definition readable_position (r : seed_draws) (i : nat) : Prop :=
  draw_long r i <> ""%string /\ is_Some (Number_of_string (draw_long r i))
  /\ draw_lat r i <> ""%string /\ is_Some (Number_of_string (draw_lat r i)).

(** The document built from [station_data r i]. *)
Definition seeded_station (r : seed_draws) (i : nat) : document :=
  {| _id := station_oid r i; fields := cast_fields stationSchema (station_data r i) |}.

Fixpoint build_all (schema : list path_spec)
    (items : list (ObjectId * gmap string json)) : mongoose_error + list document :=
  match items with
  | [] => inr []
  | (fresh, body) :: rest =>
      match build schema fresh body with
      | inl e => inl e
      | inr d =>
          match build_all schema rest with
          | inl e => inl e
          | inr ds => inr (d :: ds)
          end
      end
  end.

(** The ordered insert of the driver: documents go in one after the other
    and the first refused one stops the rest. *)
Fixpoint insert_ordered (schema : list path_spec) (coll : list document)
    (docs : list document) : option mongoose_error * list document :=
  match docs with
  | [] => (None, coll)
  | d :: rest =>
      match findById_doc coll (_id d) with
      | Some _ => (Some DuplicateKey, coll)
      | None =>
          if unique_clash schema coll d then (Some DuplicateKey, coll)
          else insert_ordered schema (coll ++ [d]) rest
      end
  end.

(** [Model.insertMany(items)]: all documents are validated before any is
    written. *)
Definition Model_insertMany (schema : list path_spec) (coll : list document)
    (items : list (ObjectId * gmap string json))
  : (mongoose_error + list document) * list document :=
  match build_all schema items with
  | inl e => (inl e, coll)
  | inr docs =>
      match insert_ordered schema coll docs with
      | (Some e, coll') => (inl e, coll')
      | (None, coll') => (inr docs, coll')
      end
  end.

(** The object pushed to [measurementsData] for measurement [j] of the
    [i]-th station; its value is a number and its station_id an
    identifier, which cast to themselves. *)
Definition measurement_document (r : seed_draws) (i : nat) (station : document)
    (j : nat) : document :=
  {| _id := measurement_oid r i j;
     fields := <["value"%string := VNum (draw_value r i j)]>
               (<["station_id"%string := VId (_id station)]> ∅) |}.

Definition numbered {A : Type} (l : list A) : list (nat * A) :=
  combine (seq 0 (length l)) l.

(** [seedData()] *)
Definition seedData (r : seed_draws) (db : DB) : exited :=
  let db := with_stations db [] in        (* Station.deleteMany({}) *)
  let db := with_measurements db [] in    (* Measurement.deleteMany({}) *)
  let stationsData :=
    (fun i => (station_oid r i, station_data r i)) <$> seq 0 stationCount in
  match Model_insertMany stationSchema (stations db) stationsData with
  | (inl _, coll) => Exit 1 "Seeding error:" (with_stations db coll)
  | (inr stations, coll) =>
      let db := with_stations db coll in
      let measurementCountPerStation := (draw_count r + 1)%nat in
      let measurementsData :=
        flat_map (fun '(i, station) =>
                    measurement_document r i station
                      <$> seq 0 measurementCountPerStation)
                 (numbered stations) in
      match insert_ordered measurementSchema (measurements db) measurementsData with
      | (Some _, coll) => Exit 1 "Seeding error:" (with_measurements db coll)
      | (None, coll) => Exit 0 "Seeding complete." (with_measurements db coll)
      end
  end.

End Seed.

(* ===================================================================== *)
(** ** Invariants of the collections *)
(* ===================================================================== *)

Section Invariants.
Context `{JsNumber} `{EqDecision number} `{Bson}.

(** A stored value has the type of its path and passes [required]. *)
Definition well_typed (k : kind) (v : value) : Prop :=
  match k, v with
  | KString, VStr s => s <> ""%string
  | KNumber, VNum _ => True
  | KObjectId, VId _ => True
  | _, _ => False
  end.

(** Every required path of the schema holds a well-typed value. *)
Definition valid_document (schema : list path_spec) (d : document) : Prop :=
  forall p, In p schema -> p_required p = true ->
    exists v, fields d !! p_name p = Some v /\ well_typed (p_kind p) v.

(** Identifiers are pairwise distinct, and so are the values at unique
    paths. *)
Definition unique_documents (schema : list path_spec) (coll : list document)
  : Prop :=
  List.NoDup (_id <$> coll) /\
  forall p d d', In p schema -> p_unique p = true -> In d coll -> In d' coll ->
    fields d !! p_name p = fields d' !! p_name p -> _id d = _id d'.

(** The store is consistent: in both collections identifiers are distinct,
    unique paths hold distinct values, and every document is valid for its
    schema. *)
Definition consistent (db : DB) : Prop :=
  unique_documents stationSchema (stations db)
  /\ (forall d, In d (stations db) -> valid_document stationSchema d)
  /\ unique_documents measurementSchema (measurements db)
  /\ (forall m, In m (measurements db) -> valid_document measurementSchema m).

(** The collection without the documents that bear identifier [o]. *)
Definition without (coll : list document) (o : ObjectId) : list document :=
  List.filter (fun d' => negb (bool_decide (_id d' = o))) coll.

End Invariants.

(* ===================================================================== *)
(** ** Further sample data *)
(* ===================================================================== *)

Module Sample.

#[global] Instance hashing : BcryptHash := {|
  bcrypt_hash := fun p _ => ("bcrypt:" +:+ p)%string;
|}.

Definition station2 : document :=
  {| _id := "64b0000000000000000000a2"%string;
     fields := {[ "name"%string := VStr "South";
                  "long"%string := VNum 30;
                  "lat"%string := VNum 40;
                  "type"%string := VStr "automatic";
                  "code"%string := VStr "S1" ]} |}.

Definition measurement1 : document :=
  {| _id := "64b0000000000000000000c1"%string;
     fields := {[ "value"%string := VNum 21;
                  "station_id"%string := VId "64b0000000000000000000a1"%string ]} |}.

(** Two stations and one measurement taken at the first. *)
Definition db1 : DB :=
  {| users := [Toy.admin]; stations := [Toy.station1; station2];
     measurements := [measurement1] |}.

Definition request_with (m : http_method) (p : list string)
    (q : gmap string string) (auth : option string) (b : gmap string json)
  : request :=
  {| method := m; path := p; query := q; authorization := auth; body := b |}.

Definition attached_body : gmap string json :=
  {[ "value"%string := JNum 7;
     "station_id"%string := JStr "64b0000000000000000000a1" ]}.

Definition login_body : gmap string json :=
  {[ "username"%string := JStr "admin"; "password"%string := JStr "admin123" ]}.

Definition numeric_password_body : gmap string json :=
  {[ "username"%string := JStr "admin"; "password"%string := JNum 123 ]}.

Definition empty_store : DB :=
  {| users := []; stations := []; measurements := [] |}.

Definition provisioning : admin_env :=
  {| ADMIN_USERNAME := None; ADMIN_PASSWORD := None;
     generated_id := Toy.admin_id |}.

(** Numbers that read back the strings [toFixed] writes when their fraction
    is zero. *)
Fixpoint all_zero (s : string) : bool :=
  match s with
  | EmptyString => true
  | String c r => Ascii.eqb c "0" && all_zero r
  end.

Definition whole (s : string) : option Z :=
  (fun d => Z.of_N (N.of_uint d)) <$> NilZero.uint_of_string s.

Definition parse_fixed (s : string) : option Z :=
  match index 0 "." s with
  | None => whole s
  | Some k =>
      if all_zero (substring (k + 1) (String.length s - (k + 1)) s)
      then whole (substring 0 k s) else None
  end.

(** An identifier: 20 leading digits and a counter on 4. *)
Definition oid (prefix : string) (n : nat) : string :=
  let digits := decimal (N.of_nat n) in
  prefix +:+ substring 0 (4 - String.length digits) "0000" +:+ digits.

Section Parsing.

#[local] Instance parsing : JsNumber := {|
  number := Z;
  String_of_number := fun z => NilEmpty.string_of_int (Z.to_int z);
  Number_of_string := parse_fixed;
  Number_of_bool := fun b => if b then 1 else 0;
  toISOString := fun _ => "1970-01-01T00:00:00.000Z"%string;
|}.

(** A run that draws the same position for every station and two
    measurements for each. *)
Definition seeding_draws : seed_draws :=
  {| draw_long := fun _ => "12.0000"%string;
     draw_lat := fun _ => "34.0000"%string;
     draw_automatic := Nat.even;
     draw_count := 1;
     draw_value := fun i j => Z.of_nat (i + j);
     station_oid := oid "64b0000000000000000a";
     measurement_oid := fun i j => oid "64b0000000000000000c" (2 * i + j) |}.

(** A store that holds a station before the run. *)
Definition seeding_store : DB :=
  {| users := [Toy.admin];
     stations := [ {| _id := "64b0000000000000000000a1"%string;
                      fields := {[ "code"%string := VStr "STATION_CODE_1" ]} |} ];
     measurements := [] |}.

End Parsing.

End Sample.

(* ===================================================================== *)
(** * Properties *)
(* ===================================================================== *)

(** ** Splitting the Authorization header *)

Example split_space_bearer :
  split_space "Bearer abc" = ["Bearer"; "abc"]%string.
Proof. reflexivity. Qed.

Example split_space_adjacent :
  split_space "Bearer  abc " = ["Bearer"; ""; "abc"; ""]%string.
Proof. reflexivity. Qed.

Example whitespace_segments_adjacent :
  whitespace_segments "Bearer  abc " = ["Bearer"; "abc"]%string.
Proof. reflexivity. Qed.

Lemma split_space_not_nil (s : string) : split_space s <> [].
Proof.
  destruct s as [|c r]; simpl; [discriminate|].
  destruct (Ascii.eqb c space); [discriminate|].
  destruct (split_space r); discriminate.
Qed.

Lemma split_space_single (s : string) : no_space s -> split_space s = [s].
Proof.
  induction s as [|c r IH]; simpl; [reflexivity|].
  intros [Hc Hr]. apply Ascii.eqb_neq in Hc. rewrite Hc, (IH Hr). reflexivity.
Qed.

Lemma split_space_cut (a b : string) :
  no_space a -> split_space (a +:+ " " +:+ b) = a :: split_space b.
Proof.
  induction a as [|c r IH]; simpl; [reflexivity|].
  intros [Hc Hr]. apply Ascii.eqb_neq in Hc. rewrite Hc.
  simpl in IH. rewrite (IH Hr). reflexivity.
Qed.

Lemma append_empty (s : string) : s +:+ "" = s.
Proof.
  induction s as [|c r IH]; [reflexivity|].
  change (String c (r +:+ "") = String c r). f_equal. exact IH.
Qed.

Lemma truthy_app (a b : string) : truthy (Some (a +:+ " " +:+ b)) = true.
Proof. destruct a; reflexivity. Qed.

Section HeaderToken.
Context `{JsNumber} `{EqDecision number} `{Bson} `{Jws} `{Bcrypt}.

Lemma header_token_missing (authHeader : option string) :
  no_token_segment authHeader -> truthy (header_token authHeader) = false.
Proof.
  destruct authHeader as [h|]; [|reflexivity].
  intros [Hs | (scheme & rest & -> & Hs & Hrest)]; unfold header_token.
  - destruct (truthy (Some h)) eqn:Hh; [|exact Hh].
    rewrite (split_space_single h Hs). reflexivity.
  - rewrite truthy_app, (split_space_cut _ _ Hs).
    destruct Hrest as [-> | (r & ->)]; reflexivity.
Qed.

Lemma header_token_second (scheme tok tail : string) :
  no_space scheme -> no_space tok ->
  tail = ""%string \/ (exists r, tail = " " +:+ r) ->
  header_token (Some (scheme +:+ " " +:+ tok +:+ tail)) = Some tok.
Proof.
  intros Hs Ht Htail. unfold header_token.
  rewrite truthy_app, (split_space_cut _ _ Hs).
  destruct Htail as [-> | (r & ->)].
  - rewrite append_empty, (split_space_single tok Ht). reflexivity.
  - rewrite (split_space_cut _ _ Ht). reflexivity.
Qed.

(** The middleware only reads the header through [header_token]. *)
Lemma authenticateToken_token (w : world) (db : DB) (req req' : request)
    (u u' : option User) :
  header_token (authorization req) = header_token (authorization req') ->
  authenticateToken w db req u = authenticateToken w db req' u'.
Proof. intros E. unfold authenticateToken. rewrite E. reflexivity. Qed.

Lemma authenticateToken_missing (w : world) (db : DB) (req : request)
    (u : option User) :
  truthy (header_token (authorization req)) = false ->
  authenticateToken w db req u
  = Respond (json_error 401 (Text "Access token required")) db.
Proof. intros E. unfold authenticateToken. rewrite E. reflexivity. Qed.

(** C4: when the Authorization header is absent or carries no token
    segment, the middleware answers 401 with the body
    [{ error: 'Access token required' }], the store is untouched, and in
    both protected routers it is the only layer that runs: no resource
    handler is invoked.  The same holds for the application on every path
    under '/stations' and '/measurements'. *)
Theorem C4_missing_token_rejected (w : world) (db : DB) (req : request) :
  no_token_segment (authorization req) ->
  let rejected := Sent (json_error 401 (Text "Access token required")) db in
  authenticateToken w db req None
    = Respond (json_error 401 (Text "Access token required")) db
  /\ dispatch stationRoutes w db req None = (["authenticateToken"%string], rejected)
  /\ dispatch measurementRoutes w db req None = (["authenticateToken"%string], rejected)
  /\ (forall rest, path req = "stations"%string :: rest ->
        app w db req = (["authenticateToken"%string], rejected))
  /\ (forall rest, path req = "measurements"%string :: rest ->
        app w db req = (["authenticateToken"%string], rejected)).
Proof.
  intros Hno rejected.
  pose proof (header_token_missing _ Hno) as Hmissing.
  pose proof (authenticateToken_missing w db req None Hmissing) as E.
  split; [exact E|].
  split; [simpl; rewrite E; reflexivity|].
  split; [simpl; rewrite E; reflexivity|].
  split; intros rest Hpath; unfold app, mounts; cbn [app_use]; rewrite Hpath;
    cbn [String.eqb Ascii.eqb Bool.eqb]; cbn [dispatch stationRoutes measurementRoutes
      authRoutes l_match l_handle l_name];
    rewrite (authenticateToken_missing w db (mounted req rest) None Hmissing);
    reflexivity.
Qed.

End HeaderToken.

Lemma C4_missing_token_rejected_witness :
  app (Toy.world_at 0) Toy.db0 (Toy.request_of GET ["stations"%string] None ∅)
  = (["authenticateToken"%string],
     Sent (json_error 401 (Text "Access token required")) Toy.db0).
Proof.
  refine (proj1 (proj2 (proj2 (proj2 (C4_missing_token_rejected (Toy.world_at 0)
    Toy.db0 (Toy.request_of GET ["stations"%string] None ∅) _)))) [] _).
  - exact I.
  - reflexivity.
Defined.

Section Scheme.
Context `{JsNumber} `{EqDecision number} `{Bson} `{Jws} `{Bcrypt}.

(** C10 (amended): the middleware takes as token the second segment of the
    Authorization header cut at every single space character, and never
    looks at the first segment.  For a header [scheme ' ' tok ...] whose
    [scheme] and [tok] contain no space, the token is [tok] and the
    outcome is the one of the header ['Bearer ' tok], whatever [scheme]
    is ('Basic' included); a header of one segment ('Bearer' alone) is
    rejected with 401 [{ error: 'Access token required' }]. *)
Theorem C10_second_space_segment (w : world) (db : DB) (req : request)
    (u : option User) :
  (forall scheme tok tail : string,
     authorization req = Some (scheme +:+ " " +:+ tok +:+ tail) ->
     no_space scheme -> no_space tok ->
     tail = ""%string \/ (exists r, tail = " " +:+ r) ->
     header_token (authorization req) = Some tok
     /\ forall req' : request,
          authorization req' = Some ("Bearer " +:+ tok) ->
          authenticateToken w db req u = authenticateToken w db req' u)
  /\ (forall h : string,
        authorization req = Some h -> no_space h ->
        authenticateToken w db req u
        = Respond (json_error 401 (Text "Access token required")) db).
Proof.
  split.
  - intros scheme tok tail E Hs Ht Htail.
    assert (Htok : header_token (authorization req) = Some tok)
      by (rewrite E; apply header_token_second; assumption).
    split; [exact Htok|].
    intros req' E'. apply authenticateToken_token.
    rewrite Htok, E'.
    pose proof (header_token_second "Bearer" tok "") as B.
    rewrite append_empty in B. symmetry.
    apply B; [repeat split; discriminate | assumption | left; reflexivity].
  - intros h E Hh. apply authenticateToken_missing, header_token_missing.
    rewrite E. left. exact Hh.
Qed.

End Scheme.

Lemma C10_second_space_segment_witness :
  authenticateToken (Toy.world_at 0) Toy.db0
    (Toy.request_of GET [] (Some ("Basic " +:+ Toy.issued_token)) ∅) None
  = authenticateToken (Toy.world_at 0) Toy.db0
      (Toy.request_of GET [] (Some ("Bearer " +:+ Toy.issued_token)) ∅) None
  /\ authenticateToken (Toy.world_at 0) Toy.db0
       (Toy.request_of GET [] (Some "Bearer"%string) ∅) None
     = Respond (json_error 401 (Text "Access token required")) Toy.db0.
Proof.
  pose proof (C10_second_space_segment (Toy.world_at 0) Toy.db0
    (Toy.request_of GET [] (Some ("Basic " +:+ Toy.issued_token)) ∅) None) as [Hsecond _].
  pose proof (C10_second_space_segment (Toy.world_at 0) Toy.db0
    (Toy.request_of GET [] (Some "Bearer"%string) ∅) None) as [_ Hsingle].
  split.
  - refine (proj2 (Hsecond "Basic"%string Toy.issued_token ""%string _ _ _ _) _ _).
    + reflexivity.
    + repeat split; discriminate.
    + vm_compute. repeat split; discriminate.
    + left; reflexivity.
    + reflexivity.
  - apply (Hsingle "Bearer"%string); [reflexivity|].
    repeat split; discriminate.
Defined.

(** C10, as stated, fails: in ['Bearer  abc'] (two spaces) and in
    ['Bearer<TAB>abc'] the second white-space-separated segment is ['abc'],
    but the middleware finds no token and answers 'Access token required',
    whereas the token ['abc'] itself is answered 'Invalid token'. *)
Lemma C10_counterexample :
  let tabbed := ("Bearer" +:+ String (ascii_of_nat 9) "abc")%string in
  let answer h := authenticateToken (Toy.world_at 0) Toy.db0
                    (Toy.request_of GET [] (Some h) ∅) None in
  whitespace_segments "Bearer  abc" !! 1%nat = Some "abc"%string
  /\ whitespace_segments tabbed !! 1%nat = Some "abc"%string
  /\ answer "Bearer  abc"%string
     = Respond (json_error 401 (Text "Access token required")) Toy.db0
  /\ answer tabbed
     = Respond (json_error 401 (Text "Access token required")) Toy.db0
  /\ answer "Bearer abc"%string
     = Respond (json_error 401 (Text "Invalid token")) Toy.db0.
Proof. repeat split. Qed.

(** ** Verification of session tokens *)

Lemma truthy_token (tok : string) : tok <> ""%string -> truthy (Some tok) = true.
Proof. destruct tok; [congruence | reflexivity]. Qed.

Section Verify.
Context `{JsNumber} `{EqDecision number} `{Bson} `{Jws} `{Bcrypt}.

(** When [jwt.verify] returns a payload. *)
Lemma jwt_verify_inr (tok : string) (secret : option string) (now : Z)
    (p : jwt_payload) :
  jwt_verify tok secret now = inr p <->
  exists (t : jws) (key : string),
    jws_decode tok = Some t /\ usable_secret secret = Some key /\
    signature t <> ""%string /\ alg t ∈ hs_algorithms /\
    signature t = hmac (alg t) key (secured_input t) /\
    (forall n, nbf (payload t) = Some n -> n <= now / 1000) /\
    (forall e, exp (payload t) = Some e -> now / 1000 < e) /\
    p = payload t.
Proof.
  unfold jwt_verify, jws_verify. split.
  - destruct (jws_decode tok) as [t|]; [|discriminate].
    destruct (usable_secret secret) as [key|]; [|discriminate].
    destruct (decide (signature t = ""%string)) as [|Hsig]; [discriminate|].
    destruct (bool_decide (alg t ∈ hs_algorithms)) eqn:Halg; [|discriminate].
    destruct (bool_decide (signature t = hmac (alg t) key (secured_input t))) eqn:Hmac;
      [|discriminate].
    apply bool_decide_eq_true in Halg, Hmac. simpl.
    intros Hv. exists t, key.
    destruct (nbf (payload t)) as [n|], (exp (payload t)) as [e|];
      repeat match type of Hv with
             | (if ?c then _ else _) = _ => destruct c eqn:?; try discriminate
             end;
      injection Hv as <-; repeat split; try assumption; try reflexivity;
      intros ? [= <-]; lia.
  - intros (t & key & -> & -> & Hsig & Halg & Hmac & Hn & He & ->).
    destruct (decide (signature t = ""%string)) as [|_]; [contradiction|].
    rewrite (bool_decide_eq_true_2 _ Halg), (bool_decide_eq_true_2 _ Hmac). simpl.
    destruct (nbf (payload t)) as [n|], (exp (payload t)) as [e|];
      try specialize (Hn _ eq_refl); try specialize (He _ eq_refl);
      repeat match goal with
             | |- (if ?c then _ else _) = _ => destruct c eqn:?; try lia
             end; reflexivity.
Qed.

(** Every answer of the middleware other than [next()] is a 401 that
    leaves the store as it is. *)
Lemma authenticateToken_rejects (w : world) (db : DB) (req : request)
    (u0 : option User) :
  (exists u, authenticateToken w db req u0 = Next (Some u))
  \/ (exists m, authenticateToken w db req u0 = Respond (json_error 401 (Text m)) db).
Proof.
  unfold authenticateToken.
  destruct (negb (truthy _)); [right; eauto|].
  destruct (jwt_verify _ _ _) as [e|p]; [right; eauto|].
  destruct (User_findById db (userId p)) as [e|[u|]]; [right; eauto|left; eauto|right; eauto].
Qed.

(** C1 (amended): for a token presented in the Authorization header, the
    request proceeds as user [u] if and only if the token's signature
    verifies under the server's signing secret, its not-before time (when
    it carries one) has been reached, its expiry has not elapsed, and the
    user identifier it encodes resolves to the stored user [u]; in every
    other case the middleware answers 401 and the store is unchanged. *)
Theorem C1_verify_accepts_iff (w : world) (db : DB) (req : request) (tok : string) :
  header_token (authorization req) = Some tok -> tok <> ""%string ->
  (forall u : User,
     authenticateToken w db req None = Next (Some u) <->
     signature_verifies w tok /\ not_before_reached w tok /\
     expiry_not_elapsed w tok /\ user_resolves db tok u)
  /\ ((exists u, authenticateToken w db req None = Next (Some u))
      \/ (exists m, authenticateToken w db req None
                    = Respond (json_error 401 (Text m)) db)).
Proof.
  intros Htok Hne. split; [|apply authenticateToken_rejects].
  intros u. unfold authenticateToken. rewrite Htok, (truthy_token _ Hne). simpl.
  split.
  - destruct (jwt_verify tok (JWT_SECRET w) (Date_now w)) as [e|p] eqn:Hv; [discriminate|].
    apply jwt_verify_inr in Hv
      as (t & key & Hdec & Hkey & Hsig & Halg & Hmac & Hn & He & ->).
    unfold User_findById.
    destruct (userId (payload t)) as [s|] eqn:Hs; [|discriminate].
    destruct (ObjectId_of_string s) as [o|] eqn:Ho; [|discriminate].
    destruct (List.find _ (users db)) as [u'|] eqn:Hf; [|discriminate].
    intros [= <-].
    split; [exists t, key; auto|].
    split; [intros t' n Ht' Hn'; rewrite Hdec in Ht'; injection Ht' as <-; auto|].
    split; [intros t' e Ht' He'; rewrite Hdec in Ht'; injection Ht' as <-; auto|].
    exists t, s, o. auto.
  - intros ((t & key & Hdec & Hkey & Hsig & Halg & Hmac) & Hn & He
            & (t' & s & o & Hdec' & Hs & Ho & Hf)).
    rewrite Hdec in Hdec'. injection Hdec' as <-.
    assert (Hv : jwt_verify tok (JWT_SECRET w) (Date_now w) = inr (payload t)).
    { apply jwt_verify_inr. exists t, key. repeat split; eauto. }
    rewrite Hv. unfold User_findById. rewrite Hs, Ho, Hf. reflexivity.
Qed.

End Verify.

Lemma C1_verify_accepts_iff_witness :
  authenticateToken (Toy.world_at 2000000) Toy.db0
    (Toy.request_of GET [] (Some ("Bearer " +:+ Toy.issued_token)) ∅) None
  = Next (Some Toy.admin).
Proof.
  refine (proj2 (proj1 (C1_verify_accepts_iff (Toy.world_at 2000000) Toy.db0
    (Toy.request_of GET [] (Some ("Bearer " +:+ Toy.issued_token)) ∅)
    Toy.issued_token _ _) Toy.admin) _).
  - reflexivity.
  - discriminate.
  - split; [|split; [|split]].
    + eexists _, Toy.secret. split; [reflexivity|].
      split; [reflexivity|]. split; [discriminate|].
      split; [apply list_elem_of_In; simpl; auto | reflexivity].
    + intros t n [= <-] [=].
    + intros t e [= <-] [= <-]. reflexivity.
    + eexists _, Toy.admin_id, Toy.admin_id. repeat split; reflexivity.
Defined.

(** C1, as stated, fails: a token signed with the server's secret, not yet
    expired, naming a stored user, but carrying a not-before time in the
    future, is rejected. *)
Lemma C1_counterexample :
  let w := Toy.world_at 2000000 in
  let req := Toy.request_of GET [] (Some ("Bearer " +:+ Toy.postdated_token)) ∅ in
  signature_verifies w Toy.postdated_token
  /\ expiry_not_elapsed w Toy.postdated_token
  /\ user_resolves Toy.db0 Toy.postdated_token Toy.admin
  /\ authenticateToken w Toy.db0 req None
     = Respond (json_error 401 (Text "Invalid token")) Toy.db0.
Proof.
  split; [|split; [|split]].
  - eexists _, Toy.secret. split; [reflexivity|].
    split; [reflexivity|]. split; [discriminate|].
    split; [apply list_elem_of_In; simpl; auto | reflexivity].
  - intros t e [= <-] [= <-]. reflexivity.
  - eexists _, Toy.admin_id, Toy.admin_id. repeat split; reflexivity.
  - reflexivity.
Qed.

(** ** Login *)

Section Login.
Context `{JsNumber} `{EqDecision number} `{Bson} `{Jws} `{Bcrypt}.

(** For a username given as a string, the lookup finds nothing exactly when
    no stored user bears that name. *)
Lemma User_findOne_none (db : DB) (name : string) :
  User_findOne db (Some (JStr name)) = Some None <->
  forall u, In u (users db) -> u_username u <> name.
Proof.
  simpl. split.
  - intros [= Hf] u Hin Hname.
    apply (find_none _ _ Hf) in Hin. rewrite Hname, String.eqb_refl in Hin.
    discriminate.
  - intros Hall. f_equal.
    destruct (List.find _ (users db)) as [u|] eqn:Hf; [|reflexivity].
    apply find_some in Hf as [Hin Hname]. apply String.eqb_eq in Hname.
    destruct (Hall u Hin Hname).
Qed.

(** A password that is not a string is neither a match nor a mismatch: the
    comparison throws and the handler's catch answers 500. *)
Lemma login_password_not_string (w : world) (db : DB) (req : request)
    (user : User) :
  User_findOne db (body req !! "username"%string) = Some (Some user) ->
  (forall p, body req !! "password"%string <> Some (JStr p)) ->
  login w db req None
  = Respond (json_error 500
      (Text ("Illegal arguments: " +:+ typeof (body req !! "password"%string)
             +:+ ", string"))) db.
Proof.
  intros Hfound Hpw. unfold login, bcrypt_compare. rewrite Hfound.
  destruct (body req !! "password"%string) as [[| | |p|]|]; try reflexivity.
  destruct (Hpw p eq_refl).
Qed.


End Login.


Section Session.
Context `{JsNumber} `{EqDecision number} `{Bson} `{Jws} `{Bcrypt}.

(** A stored user is found again by its identifier. *)
Lemma find_by_id (db : DB) (user : User) :
  In user (users db) ->
  exists u', List.find (fun u => bool_decide (u_id u = u_id user)) (users db) = Some u'
             /\ u_id u' = u_id user.
Proof.
  intros Hin.
  destruct (List.find _ (users db)) as [u'|] eqn:Hf.
  - exists u'. split; [reflexivity|].
    apply find_some in Hf as [_ Hid]. apply bool_decide_eq_true in Hid. exact Hid.
  - apply (find_none _ _ Hf) in Hin.
    rewrite bool_decide_eq_true_2 in Hin by reflexivity. discriminate.
Qed.

Lemma truthy_dotted (a b : string) : truthy (Some (a +:+ "." +:+ b)) = true.
Proof. destruct a; reflexivity. Qed.

(** C2: for a stored user and a username and password that match it, login
    answers 200 with a token whose expiry is 24 hours (86400 seconds) after
    issuance; presented as a bearer token to the same store under the same
    secret, that token lets the request proceed as that user at any time
    before the expiry and is rejected with 401 at the expiry and at any
    time after it.  The hypotheses on the libraries say that the issued
    token decodes to what was signed, that its signature is not empty, that
    it contains no space, and that an identifier is read back from its
    hexadecimal form. *)
Theorem C2_login_token_valid_until_expiry (w : world) (db : DB) (req : request)
    (name pw key : string) (user : User) :
  let issued := {| userId := Some (toHexString (u_id user));
                   iat := Some (Date_now w / 1000); nbf := None;
                   exp := Some (Date_now w / 1000 + 86400) |} in
  let input := jws_secured_input "HS256" issued in
  let token := input +:+ "." +:+ hmac "HS256" key input in
  usable_secret (JWT_SECRET w) = Some key ->
  body req !! "username"%string = Some (JStr name) ->
  body req !! "password"%string = Some (JStr pw) ->
  List.find (fun u => String.eqb (u_username u) name) (users db) = Some user ->
  bcrypt_check pw (u_password user) = true ->
  jws_decode token = Some {| alg := "HS256"; payload := issued;
                             secured_input := input;
                             signature := hmac "HS256" key input |} ->
  hmac "HS256" key input <> ""%string ->
  no_space token ->
  ObjectId_of_string (toHexString (u_id user)) = Some (u_id user) ->
  login w db req None = Respond {| status := 200; res := LoginJson token (u_id user) |} db
  /\ forall (w' : world) (req' : request),
       JWT_SECRET w' = JWT_SECRET w ->
       authorization req' = Some ("Bearer " +:+ token) ->
       (Date_now w' / 1000 < Date_now w / 1000 + 86400 ->
        exists u', authenticateToken w' db req' None = Next (Some u')
                   /\ u_id u' = u_id user)
       /\ (Date_now w / 1000 + 86400 <= Date_now w' / 1000 ->
           authenticateToken w' db req' None
           = Respond (json_error 401 (Text "Invalid token")) db).
Proof.
  intros issued input token Hkey Hname Hpw Hfind Hcheck Hdec Hsig Hns Hid.
  split.
  - unfold login, User_findOne, bcrypt_compare, generateToken, jwt_sign.
    rewrite Hname, Hfind, Hpw, Hcheck, Hkey. reflexivity.
  - intros w' req' Hsecret Hauth.
    assert (Htok : header_token (authorization req') = Some token).
    { rewrite Hauth.
      pose proof (header_token_second "Bearer" token "") as B.
      rewrite append_empty in B.
      apply B; [repeat split; discriminate | exact Hns | left; reflexivity]. }
    destruct (find_by_id db user) as (u' & Hu' & Hsame).
    { apply find_some in Hfind as [Hin _]. exact Hin. }
    unfold authenticateToken. rewrite Htok.
    rewrite (truthy_dotted input (hmac "HS256" key input) : truthy (Some token) = true).
    simpl.
    unfold jwt_verify, jws_verify. rewrite Hdec, Hsecret, Hkey. simpl.
    destruct (decide (hmac "HS256" key input = ""%string)) as [|_]; [contradiction|].
    rewrite (bool_decide_eq_true_2 (hmac "HS256" key input = hmac "HS256" key input))
      by reflexivity.
    try rewrite (bool_decide_eq_true_2 ("HS256"%string ∈ hs_algorithms))
      by (apply list_elem_of_In; simpl; auto).
    simpl.
    split; intros Hclock.
    + destruct (Z.geb_spec (Date_now w' / 1000) (Date_now w / 1000 + 86400)) as [|_];
        [lia|].
      unfold User_findById. simpl. rewrite Hid, Hu'. eauto.
    + destruct (Z.geb_spec (Date_now w' / 1000) (Date_now w / 1000 + 86400)) as [_|];
        [reflexivity|lia].
Qed.

End Session.

Lemma C2_login_token_valid_until_expiry_witness :
  let credentials := Toy.request_of POST ["login"%string] None
    {[ "username"%string := JStr "admin"; "password"%string := JStr "admin123" ]} in
  let bearer := Toy.request_of GET [] (Some ("Bearer " +:+ Toy.issued_token)) ∅ in
  login (Toy.world_at 1000000) Toy.db0 credentials None
  = Respond {| status := 200; res := LoginJson Toy.issued_token Toy.admin_id |} Toy.db0
  /\ (exists u', authenticateToken (Toy.world_at 87399999) Toy.db0 bearer None
                 = Next (Some u') /\ u_id u' = Toy.admin_id)
  /\ authenticateToken (Toy.world_at 87400000) Toy.db0 bearer None
     = Respond (json_error 401 (Text "Invalid token")) Toy.db0.
Proof.
  intros credentials bearer.
  destruct (C2_login_token_valid_until_expiry (Toy.world_at 1000000) Toy.db0
              credentials "admin" "admin123" Toy.secret Toy.admin) as [Hlogin Hverify].
  - reflexivity.
  - reflexivity.
  - reflexivity.
  - reflexivity.
  - reflexivity.
  - reflexivity.
  - discriminate.
  - vm_compute. repeat split; discriminate.
  - reflexivity.
  - split; [exact Hlogin|]. split.
    + apply (Hverify (Toy.world_at 87399999) bearer); [reflexivity|reflexivity|].
      vm_compute. reflexivity.
    + apply (Hverify (Toy.world_at 87400000) bearer); [reflexivity|reflexivity|].
      vm_compute. discriminate.
Defined.

(** ** Documents and collections *)

Section Documents.
Context `{JsNumber} `{EqDecision number} `{Bson}.

Lemma cast_fields_absent (schema : list path_spec) (body : gmap string json)
    (k : string) :
  ~ In k (p_name <$> schema) -> cast_fields schema body !! k = None.
Proof.
  induction schema as [|p rest IH]; simpl; intros Hk; [apply lookup_empty|].
  destruct (body !! p_name p ≫= cast (p_kind p)).
  - rewrite lookup_insert_ne by (intros E; apply Hk; left; exact E).
    apply IH. intros Hin. apply Hk. right. exact Hin.
  - apply IH. intros Hin. apply Hk. right. exact Hin.
Qed.

(** A document built from a body holds, at each path of the schema, the
    cast of the body's value. *)
Lemma cast_fields_lookup (schema : list path_spec) (body : gmap string json)
    (p : path_spec) :
  List.NoDup (p_name <$> schema) -> In p schema ->
  cast_fields schema body !! p_name p = body !! p_name p ≫= cast (p_kind p).
Proof.
  induction schema as [|q rest IH]; simpl; [intros _ []|].
  intros Hnd [-> | Hin]; inversion Hnd as [|? ? Hq Hrest]; subst.
  - destruct (body !! p_name p ≫= cast (p_kind p)) as [v|] eqn:E.
    + apply lookup_insert_eq.
    + apply cast_fields_absent. exact Hq.
  - assert (p_name q <> p_name p).
    { intros E. apply Hq. rewrite E. apply in_map. exact Hin. }
    destruct (body !! p_name q ≫= cast (p_kind q)).
    + rewrite lookup_insert_ne by assumption. apply IH; assumption.
    + apply IH; assumption.
Qed.

(** A successful cast of an update sets what a document built from the
    same body would hold. *)
Lemma castUpdate_inr (schema : list path_spec) (body : gmap string json)
    (set : gmap string value) :
  castUpdate schema body = inr set -> set = cast_fields schema body.
Proof.
  revert set. induction schema as [|p rest IH]; simpl; intros set.
  - intros [= <-]. reflexivity.
  - destruct (body !! p_name p) as [j|]; simpl; [|apply IH].
    destruct (cast (p_kind p) j) as [v|]; [|discriminate].
    destruct (castUpdate rest body) as [k|m]; [discriminate|].
    intros [= <-]. rewrite (IH m eq_refl). reflexivity.
Qed.

Lemma findById_doc_some (coll : list document) (o : ObjectId) (d : document) :
  findById_doc coll o = Some d -> In d coll /\ _id d = o.
Proof.
  intros Hf. apply find_some in Hf as [Hin Hid].
  apply bool_decide_eq_true in Hid. auto.
Qed.

Lemma findById_doc_none (coll : list document) (o : ObjectId) (d : document) :
  findById_doc coll o = None -> In d coll -> _id d <> o.
Proof.
  intros Hf Hin E. apply (find_none _ _ Hf) in Hin.
  rewrite bool_decide_eq_true_2 in Hin by exact E. discriminate.
Qed.

(** A document appended under an unused identifier is the one found. *)
Lemma findById_doc_appended (coll : list document) (d : document) :
  findById_doc coll (_id d) = None -> findById_doc (coll ++ [d]) (_id d) = Some d.
Proof.
  unfold findById_doc. induction coll as [|x rest IH]; simpl.
  - rewrite bool_decide_eq_true_2 by reflexivity. reflexivity.
  - destruct (bool_decide (_id x = _id d)); [discriminate | exact IH].
Qed.

(** After [store], the identifier of the stored document finds it and
    every other identifier finds what it found before. *)
Lemma findById_doc_store (coll : list document) (d d' : document) (o : ObjectId) :
  findById_doc coll (_id d') = Some d ->
  findById_doc (store coll d') o
  = if decide (o = _id d') then Some d' else findById_doc coll o.
Proof.
  unfold findById_doc, store. induction coll as [|x rest IH]; simpl; [discriminate|].
  destruct (bool_decide (_id x = _id d')) eqn:Hx.
  - intros _. apply bool_decide_eq_true in Hx.
    destruct (decide (o = _id d')) as [->|Hne].
    + rewrite bool_decide_eq_true_2 by reflexivity. reflexivity.
    + rewrite bool_decide_eq_false_2 by congruence.
      rewrite bool_decide_eq_false_2 by congruence.
      clear IH. induction rest as [|y rest IH]; simpl; [reflexivity|].
      destruct (bool_decide (_id y = _id d')) eqn:Hy.
      * apply bool_decide_eq_true in Hy.
        rewrite bool_decide_eq_false_2 by congruence.
        rewrite bool_decide_eq_false_2 by congruence. exact IH.
      * destruct (bool_decide (_id y = o)); [reflexivity | exact IH].
  - intros Hrest. specialize (IH Hrest).
    destruct (decide (o = _id d')) as [->|Hne].
    + rewrite Hx. exact IH.
    + destruct (bool_decide (_id x = o)); [reflexivity | exact IH].
Qed.

(** A unique index refuses a document whose value at a unique path is held
    by a stored document with another identifier. *)
Lemma unique_clash_true (schema : list path_spec) (coll : list document)
    (d d' : document) (p : path_spec) :
  In p schema -> p_unique p = true -> In d' coll -> _id d' <> _id d ->
  fields d' !! p_name p = fields d !! p_name p ->
  unique_clash schema coll d = true.
Proof.
  intros Hp Hu Hd' Hid Hsame. unfold unique_clash.
  apply existsb_exists. exists p. split; [exact Hp|]. rewrite Hu. simpl.
  apply existsb_exists. exists d'. split; [exact Hd'|].
  rewrite bool_decide_eq_false_2 by exact Hid.
  rewrite bool_decide_eq_true_2 by exact Hsame. reflexivity.
Qed.

(** What the server's write does to a document that exists. *)
Lemma write_back_found (schema : list path_spec) (coll : list document)
    (o : ObjectId) (new_id : id_choice)
    (change : gmap string value -> gmap string value) (old : document) :
  findById_doc coll o = Some old ->
  let new := {| _id := o; fields := change (fields old) |} in
  write_back schema coll o new_id change = UDoc new (store coll new)
  \/ exists e, write_back schema coll o new_id change = UThrew e.
Proof.
  intros Hf new. unfold write_back. rewrite Hf.
  destruct new_id as [| | |o']; simpl;
    repeat match goal with
           | |- context [if ?c then _ else _] => destruct c
           end; eauto.
Qed.

End Documents.

(** ** Stations *)

Lemma stationSchema_names : List.NoDup (p_name <$> stationSchema).
Proof. repeat constructor; simpl; intuition discriminate. Qed.

Section Stations.
Context `{JsNumber} `{EqDecision number} `{Bson} `{Jws} `{Bcrypt}.

(** C9: when a stored station already holds a code, a create whose body
    brings that code (a value whose cast to a string is that code) is
    answered 400 with the error of the failed save, and the store is left
    as it was: no station is added. *)
Theorem C9_duplicate_code_rejected (w : world) (db : DB) (req : request)
    (u : option User) (existing : document) (c : string) :
  In existing (stations db) ->
  fields existing !! "code"%string = Some (VStr c) ->
  body req !! "code"%string ≫= castString = Some (VStr c) ->
  exists e : mongoose_error,
    station_post w db req u = Respond (json_error 400 (MongooseMessage e)) db.
Proof.
  intros Hin Hcode Hbody. unfold station_post, Model_save, caught.
  destruct (_ ++ invalid_paths stationSchema (body req)) as [|k bad]; [|eauto].
  destruct (match body_id (body req) with
            | IdAbsent => Some (newObjectId w) | IdIs o => Some o | _ => None
            end) as [o|]; [|eauto].
  destruct (findById_doc (stations db) o) as [d|] eqn:Hfind; [eauto|].
  erewrite (unique_clash_true stationSchema (stations db) _ existing code_path);
    [eauto | | | | |].
  - simpl. auto 10.
  - reflexivity.
  - exact Hin.
  - simpl. apply (findById_doc_none _ _ _ Hfind Hin).
  - cbn [fields].
    rewrite (cast_fields_lookup stationSchema (body req) code_path stationSchema_names)
      by (simpl; auto 10).
    change (p_name code_path) with "code"%string.
    change (cast (p_kind code_path)) with castString.
    rewrite Hcode, Hbody. reflexivity.
Qed.

End Stations.

Lemma C9_duplicate_code_rejected_witness :
  exists e : mongoose_error,
    station_post (Toy.world_at 0) Toy.db0
      (Toy.request_of POST [] None Toy.clashing_body) None
    = Respond (json_error 400 (MongooseMessage e)) Toy.db0.
Proof.
  apply (C9_duplicate_code_rejected _ Toy.db0 _ None Toy.station1 "N1").
  - simpl. auto.
  - reflexivity.
  - reflexivity.
Defined.

Section CreateStation.
Context `{JsNumber} `{EqDecision number} `{Bson} `{Jws} `{Bcrypt}.

(** No unique index of the station schema refuses a document whose code no
    other stored document holds. *)
Lemma station_code_free (coll : list document) (d : document) :
  (forall d', In d' coll -> fields d' !! "code"%string <> fields d !! "code"%string) ->
  unique_clash stationSchema coll d = false.
Proof.
  intros Hfree. unfold unique_clash. simpl. rewrite orb_false_r.
  induction coll as [|x rest IH]; simpl; [reflexivity|].
  rewrite (bool_decide_eq_false_2 (fields x !! "code"%string = fields d !! "code"%string))
    by (apply Hfree; left; reflexivity).
  rewrite andb_false_r. simpl. apply IH. intros d' Hin. apply Hfree. right. exact Hin.
Qed.

Lemma nonempty_eqb (s : string) : s <> ""%string -> String.eqb s "" = false.
Proof. intros Hs. apply String.eqb_neq. exact Hs. Qed.

(** C8: for a valid set of station fields (non-empty strings for name, type
    and code, numbers for long and lat, a code no stored station holds, an
    unused generated identifier), create answers 201 with a record holding
    exactly those values and persists it; get on the identifier of that
    record then answers 200 with the same record, field by field. *)
Theorem C8_create_then_get (w : world) (db : DB) (req : request) (u : option User)
    (name type code : string) (long lat : number) :
  let d := {| _id := newObjectId w;
              fields := <["name"%string := VStr name]>
                        (<["long"%string := VNum long]>
                        (<["lat"%string := VNum lat]>
                        (<["type"%string := VStr type]>
                        (<["code"%string := VStr code]> ∅)))) |} in
  let db' := with_stations db (stations db ++ [d]) in
  body req !! "name"%string = Some (JStr name) -> name <> ""%string ->
  body req !! "long"%string = Some (JNum long) ->
  body req !! "lat"%string = Some (JNum lat) ->
  body req !! "type"%string = Some (JStr type) -> type <> ""%string ->
  body req !! "code"%string = Some (JStr code) -> code <> ""%string ->
  body req !! "_id"%string = None ->
  findById_doc (stations db) (newObjectId w) = None ->
  (forall d', In d' (stations db) -> fields d' !! "code"%string <> Some (VStr code)) ->
  ObjectId_of_string (toHexString (newObjectId w)) = Some (newObjectId w) ->
  station_post w db req u = Respond {| status := 201; res := DocJson d |} db'
  /\ forall (w' : world) (req' : request) (u' : option User),
       path req' = [toHexString (_id d)] ->
       station_get w' db' req' u' = Respond {| status := 200; res := DocJson d |} db'.
Proof.
  intros d db' Hname Hname' Hlong Hlat Htype Htype' Hcode Hcode' Hid Hfresh Hfree Hhex.
  assert (Hfields : cast_fields stationSchema (body req) = fields d).
  { unfold stationSchema. cbn [cast_fields p_name p_kind]. 
    rewrite Hname, Hlong, Hlat, Htype, Hcode. reflexivity. }
  split.
  - unfold station_post, Model_save, body_id, invalid_paths, stationSchema, path_invalid.
    cbn [List.filter p_name p_kind p_required].
    rewrite Hid, Hname, Hlong, Hlat, Htype, Hcode.
    cbn [cast castString castNumber checkRequired].
    rewrite (nonempty_eqb _ Hname'), (nonempty_eqb _ Htype'), (nonempty_eqb _ Hcode').
    cbn [negb andb List.filter fmap list_fmap app].
    rewrite Hfresh.
    fold stationSchema. rewrite Hfields.
    change {| _id := newObjectId w; fields := fields d |} with d.
    rewrite station_code_free; [reflexivity|].
    intros d' Hin. cbn [fields d].
    rewrite lookup_insert_ne by discriminate.
    rewrite lookup_insert_ne by discriminate.
    rewrite lookup_insert_ne by discriminate.
    rewrite lookup_insert_ne by discriminate.
    rewrite lookup_insert_eq. apply Hfree, Hin.
  - intros w' req' u' Hpath. unfold station_get, params_id, Model_findById.
    rewrite Hpath. change (_id d) with (newObjectId w). rewrite Hhex.
    change (stations db') with (stations db ++ [d]).
    change (newObjectId w) with (_id d).
    rewrite (findById_doc_appended (stations db) d Hfresh). reflexivity.
Qed.

End CreateStation.

Lemma C8_create_then_get_witness :
  let created := {| _id := newObjectId (Toy.world_at 0);
                    fields := {[ "name"%string := VStr "South";
                                 "long"%string := VNum 30;
                                 "lat"%string := VNum 40;
                                 "type"%string := VStr "automatic";
                                 "code"%string := VStr "S1" ]} |} in
  let db' := with_stations Toy.db0 [Toy.station1; created] in
  station_post (Toy.world_at 0) Toy.db0
    (Toy.request_of POST [] None Toy.south_body) None
  = Respond {| status := 201; res := DocJson created |} db'
  /\ station_get (Toy.world_at 5000) db'
       (Toy.request_of GET ["64b0000000000000000000ff"%string] None ∅) None
     = Respond {| status := 200; res := DocJson created |} db'.
Proof.
  intros created db'.
  destruct (C8_create_then_get (Toy.world_at 0) Toy.db0
              (Toy.request_of POST [] None Toy.south_body) None
              "South" "automatic" "S1" 30 40) as [Hpost Hget].
  - reflexivity.
  - discriminate.
  - reflexivity.
  - reflexivity.
  - reflexivity.
  - discriminate.
  - reflexivity.
  - discriminate.
  - reflexivity.
  - reflexivity.
  - intros d' [<- | []]. vm_compute. discriminate.
  - reflexivity.
  - split; [exact Hpost|].
    apply (Hget (Toy.world_at 5000)
             (Toy.request_of GET ["64b0000000000000000000ff"%string] None ∅) None).
    reflexivity.
Defined.

(** ** Updates: PATCH and PUT *)

Section Updates.
Context `{JsNumber} `{EqDecision number} `{Bson} `{Jws} `{Bcrypt}.

Lemma Model_findByIdAndUpdate_found (schema : list path_spec)
    (coll : list document) (id : string) (body : gmap string json)
    (o : ObjectId) (old : document) :
  has_dollar_keys body = false -> ObjectId_of_string id = Some o ->
  findById_doc coll o = Some old ->
  let new := {| _id := o; fields := cast_fields schema body ∪ fields old |} in
  (Model_findByIdAndUpdate schema coll id body = UDoc new (store coll new)
   /\ castUpdate schema body = inr (cast_fields schema body))
  \/ exists e, Model_findByIdAndUpdate schema coll id body = UThrew e.
Proof.
  intros Hd Hid Hold new. unfold Model_findByIdAndUpdate. rewrite Hd, Hid.
  destruct (castUpdate schema body) as [k|set] eqn:Hset;
    [destruct (body_id body); eauto|].
  apply castUpdate_inr in Hset as ->.
  destruct (update_invalid_paths schema (cast_fields schema body));
    [|destruct (body_id body); eauto].
  destruct (body_id body) eqn:Hb; eauto;
    destruct (write_back_found schema coll o (body_id body)
                (fun old => cast_fields schema body ∪ old) old Hold) as [E|E];
    rewrite Hb in E; eauto.
Qed.

(** An update that was cast holds no value that fails to cast. *)
Lemma castUpdate_casts (schema : list path_spec) (body : gmap string json)
    (set : gmap string value) (p : path_spec) (j : json) :
  castUpdate schema body = inr set -> In p schema -> body !! p_name p = Some j ->
  exists v, cast (p_kind p) j = Some v.
Proof.
  revert set. induction schema as [|q rest IH]; simpl; intros set Hset Hin Hj;
    [destruct Hin|].
  destruct Hin as [-> | Hin].
  - rewrite Hj in Hset. destruct (cast (p_kind p) j) as [v|] eqn:Hv; [eauto | discriminate].
  - destruct (body !! p_name q) as [jq|]; [|eauto].
    destruct (cast (p_kind q) jq); [|discriminate].
    destruct (castUpdate rest body) as [k|m]; [discriminate | eauto].
Qed.

Lemma Model_findByIdAndOverwrite_found (schema : list path_spec)
    (coll : list document) (id : string) (body : gmap string json)
    (o : ObjectId) (old : document) :
  has_dollar_keys body = false -> ObjectId_of_string id = Some o ->
  findById_doc coll o = Some old ->
  let new := {| _id := o; fields := cast_fields schema body |} in
  (Model_findByIdAndOverwrite schema coll id body = UDoc new (store coll new)
   /\ invalid_paths schema body = [])
  \/ exists e, Model_findByIdAndOverwrite schema coll id body = UThrew e.
Proof.
  intros Hd Hid Hold new. unfold Model_findByIdAndOverwrite. rewrite Hd, Hid.
  destruct (invalid_paths schema body) as [|k bad] eqn:Hbad.
  - destruct (body_id body) eqn:Hb; simpl; eauto;
      destruct (write_back_found schema coll o (body_id body)
                  (fun _ => cast_fields schema body) old Hold) as [E|E];
      rewrite Hb in E; eauto.
  - right. destruct (body_id body); simpl; eauto.
Qed.

(** A valid document holds a successfully cast value at every required
    path. *)
Lemma invalid_paths_nil (schema : list path_spec) (body : gmap string json)
    (p : path_spec) :
  invalid_paths schema body = [] -> In p schema -> p_required p = true ->
  exists j v, body !! p_name p = Some j /\ cast (p_kind p) j = Some v.
Proof.
  unfold invalid_paths. intros Hnil Hin Hreq.
  destruct (path_invalid body p) eqn:Hp.
  - assert (Hf : In p (List.filter (path_invalid body) schema))
      by (apply filter_In; auto).
    destruct (List.filter (path_invalid body) schema); [destruct Hf | discriminate].
  - unfold path_invalid in Hp. rewrite Hreq in Hp.
    destruct (body !! p_name p) as [j|]; [|discriminate].
    destruct (cast (p_kind p) j) as [v|] eqn:Hv; [eauto | discriminate].
Qed.

Lemma invalid_paths_has (schema : list path_spec) (body : gmap string json)
    (p : path_spec) :
  In p schema -> path_invalid body p = true -> invalid_paths schema body <> [].
Proof.
  unfold invalid_paths. intros Hin Hp Hnil.
  assert (Hf : In p (List.filter (path_invalid body) schema))
    by (apply filter_In; auto).
  destruct (List.filter (path_invalid body) schema); [destruct Hf | discriminate].
Qed.

Lemma invalid_paths_omitted (schema : list path_spec) (body : gmap string json)
    (p : path_spec) :
  In p schema -> p_required p = true -> body !! p_name p = None ->
  invalid_paths schema body <> [].
Proof.
  intros Hin Hreq Hnone Hnil.
  destruct (invalid_paths_nil schema body p Hnil Hin Hreq) as (j & v & Hj & _).
  congruence.
Qed.

Lemma station_paths_required (p : path_spec) :
  In p stationSchema -> p_required p = true.
Proof. simpl. intros [<-|[<-|[<-|[<-|[<-|[]]]]]]; reflexivity. Qed.


End Updates.



(** ** Measurements *)

Section Measurements.
Context `{JsNumber} `{EqDecision number} `{Bson} `{Jws} `{Bcrypt}.

(** C5 (amended): create(measurement) never looks the station up.  A body
    with a numeric value and a station_id that is a well-formed identifier
    is persisted and answered 201, whatever the station collection holds
    (in particular when no station bears that identifier); a body whose
    station_id is missing, null or not a well-formed identifier is refused
    with 400 and nothing is persisted. *)
Theorem C5_measurement_create_ignores_stations (w : world) (db : DB)
    (req : request) (u : option User) :
  (forall (n : number) (s : string) (o : ObjectId),
     let d := {| _id := newObjectId w;
                 fields := <["value"%string := VNum n]>
                           (<["station_id"%string := VId o]> ∅) |} in
     body req !! "value"%string = Some (JNum n) ->
     body req !! "station_id"%string = Some (JStr s) ->
     ObjectId_of_string s = Some o ->
     body req !! "_id"%string = None ->
     findById_doc (measurements db) (newObjectId w) = None ->
     measurement_post w db req u
     = Respond {| status := 201; res := DocJson d |}
               (with_measurements db (measurements db ++ [d])))
  /\ ((forall o, body req !! "station_id"%string ≫= castObjectId <> Some (VId o)) ->
      exists e, measurement_post w db req u
                = Respond (json_error 400 (MongooseMessage e)) db).
Proof.
  split.
  - intros n s o d Hvalue Hstation Hcast Hid Hfresh.
    unfold measurement_post, Model_save, body_id, invalid_paths,
      measurementSchema, path_invalid.
    cbn [List.filter cast_fields p_name p_kind p_required].
    rewrite Hid, Hvalue, Hstation.
    cbn [cast castNumber castObjectId checkRequired mbind option_bind].
    rewrite Hcast.
    cbn [fmap option_fmap option_map negb andb List.filter list_fmap app
         mbind option_bind checkRequired].
    rewrite Hfresh. reflexivity.
  - intros Hbad. unfold measurement_post, caught, Model_save.
    pose proof (invalid_paths_has measurementSchema (body req)
      {| p_name := "station_id"; p_kind := KObjectId;
         p_required := true; p_unique := false |}) as Hne.
    destruct (invalid_paths measurementSchema (body req)) as [|k bad].
    + exfalso. apply Hne; [simpl; auto | | reflexivity].
      unfold path_invalid. cbn [p_name p_kind p_required cast].
      destruct (body req !! "station_id"%string) as [j|]; [|reflexivity].
      simpl in Hbad.
      destruct (castObjectId j) as [[| | |o]|] eqn:Hj; try reflexivity.
      * destruct j; simpl in Hj; try discriminate;
          destruct (ObjectId_of_string _); discriminate.
      * destruct j; simpl in Hj; try discriminate;
          destruct (ObjectId_of_string _); discriminate.
      * destruct (Hbad o eq_refl).
    + destruct (body_id (body req)); simpl; eauto.
Qed.

End Measurements.

Lemma C5_measurement_create_ignores_stations_witness :
  let d := {| _id := "64b0000000000000000000ff"%string;
              fields := {[ "value"%string := VNum 21;
                           "station_id"%string := VId "64b0000000000000000000b2"%string ]} |} in
  measurement_post (Toy.world_at 0) Toy.db0
    (Toy.request_of POST [] None Toy.dangling_body) None
  = Respond {| status := 201; res := DocJson d |} (with_measurements Toy.db0 [d]).
Proof.
  intros d.
  apply (proj1 (C5_measurement_create_ignores_stations (Toy.world_at 0) Toy.db0
                  (Toy.request_of POST [] None Toy.dangling_body) None)
           21 "64b0000000000000000000b2"%string "64b0000000000000000000b2"%string);
    reflexivity.
Defined.

(** C5, as stated, fails: with no station under the identifier the body
    names, the measurement is persisted and the answer is 201. *)
Lemma C5_counterexample :
  let d := {| _id := "64b0000000000000000000ff"%string;
              fields := {[ "value"%string := VNum 21;
                           "station_id"%string := VId "64b0000000000000000000b2"%string ]} |} in
  Toy.dangling_body !! "station_id"%string = Some (JStr "64b0000000000000000000b2")
  /\ findById_doc (stations Toy.db0) "64b0000000000000000000b2"%string = None
  /\ measurement_post (Toy.world_at 0) Toy.db0
       (Toy.request_of POST [] None Toy.dangling_body) None
     = Respond {| status := 201; res := DocJson d |} (with_measurements Toy.db0 [d])
  /\ measurements (with_measurements Toy.db0 [d]) = [d].
Proof. repeat split. Qed.

(** ** The status page *)

Lemma append_assoc (a b c : string) : (a +:+ b) +:+ c = a +:+ b +:+ c.
Proof.
  induction a as [|x r IH]; [reflexivity|].
  change (String x ((r +:+ b) +:+ c) = String x (r +:+ b +:+ c)). f_equal. exact IH.
Qed.

Lemma contains_refl (v : string) : contains v v.
Proof. exists ""%string, ""%string. rewrite append_empty. reflexivity. Qed.

Lemma contains_app_l (a b v : string) : contains a v -> contains (a +:+ b) v.
Proof.
  intros (pre & post & ->). exists pre, (post +:+ b).
  rewrite !append_assoc. reflexivity.
Qed.

Lemma contains_app_r (a b v : string) : contains b v -> contains (a +:+ b) v.
Proof.
  intros (pre & post & ->). exists (a +:+ pre), post.
  rewrite !append_assoc. reflexivity.
Qed.

Lemma contains_concat (sep : string) (l : list string) (x v : string) :
  In x l -> contains x v -> contains (String.concat sep l) v.
Proof.
  induction l as [|y rest IH]; simpl; [intros []|].
  intros [-> | Hin] Hx.
  - destruct rest; [exact Hx | apply contains_app_l, Hx].
  - destruct rest as [|z rest']; [destruct Hin|].
    apply contains_app_r, contains_app_r, IH; assumption.
Qed.

Lemma status_item_contains (label content : string) :
  contains (status_item label content) content.
Proof.
  unfold status_item.
  do 5 apply contains_app_r. apply contains_app_l, contains_refl.
Qed.

Section Status.
Context `{JsNumber} `{EqDecision number} `{Bson} `{Jws} `{Bcrypt}.

(** C6 (amended): the GET / handler of the status router runs without any
    authentication layer and, whatever the request carries, answers 200
    with an HTML page (not a JSON document) that shows the five values
    status ('ok'), version, uptime, environment (NODE_ENV, or 'production'
    when it is unset or empty) and timestamp. *)
Theorem C6_status_page_is_html (w : world) (db : DB) (req : request)
    (u : option User) :
  let page := status_html (snapshot w) in
  status_page w db req u = Respond {| status := 200; res := Html page |} db
  /\ (route GET 0 req = true ->
      dispatch statusRoutes w db req u
      = (["GET /"%string], Sent {| status := 200; res := Html page |} db))
  /\ ~ machine_readable (Html page)
  /\ contains page "ok"
  /\ contains page (pkg_version w)
  /\ contains page (decimal (uptime w))
  /\ contains page (if truthy (NODE_ENV w) then default ""%string (NODE_ENV w)
                    else "production"%string)
  /\ contains page (toISOString (Date_now w)).
Proof.
  intros page.
  assert (Hitem : forall label content v,
            In (status_item label content) [
              status_item "Status"
                ("<span " +:+ class_attr "status-ok" +:+ ">"
                 +:+ s_status (snapshot w) +:+ "</span>");
              status_item "Version" (s_version (snapshot w));
              status_item "Uptime" (decimal (s_uptime (snapshot w)) +:+ " seconds");
              status_item "Environment" (s_environment (snapshot w));
              status_item "Last Updated" (s_timestamp (snapshot w))]%string ->
            contains content v -> contains page v).
  { intros label content v Hin Hv. unfold page, status_html.
    apply (contains_concat _ _ (status_item label content)).
    - simpl in Hin. simpl. intuition.
    - destruct (status_item_contains label content) as (pre & post & ->).
      apply contains_app_r, contains_app_l, Hv. }
  split; [reflexivity|]. split.
  { intros Hroute. simpl. rewrite Hroute. reflexivity. }
  split; [intros []|].
  repeat split.
  - eapply Hitem; [left; reflexivity|].
    do 3 apply contains_app_r. apply contains_app_l, contains_refl.
  - eapply Hitem; [right; left; reflexivity | apply contains_refl].
  - eapply Hitem; [right; right; left; reflexivity|].
    apply contains_app_l, contains_refl.
  - eapply Hitem; [right; right; right; left; reflexivity | apply contains_refl].
  - eapply Hitem; [right; right; right; right; left; reflexivity | apply contains_refl].
Qed.

End Status.

Lemma C6_status_page_is_html_witness :
  dispatch statusRoutes (Toy.world_at 12345) Toy.db0
    (Toy.request_of GET [] None ∅) None
  = (["GET /"%string],
     Sent {| status := 200;
             res := Html (status_html (snapshot (Toy.world_at 12345))) |} Toy.db0).
Proof.
  apply (C6_status_page_is_html (Toy.world_at 12345) Toy.db0
           (Toy.request_of GET [] None ∅) None).
  reflexivity.
Defined.

(** C6, as stated, fails: the application answers GET /status with
    Express's 404 because no router is mounted there, and the status
    handler itself sends an HTML page, not a machine-readable snapshot. *)
Lemma C6_counterexample :
  app (Toy.world_at 12345) Toy.db0 (Toy.request_of GET ["status"%string] None ∅)
  = ([], Sent {| status := 404; res := DefaultNotFound |} Toy.db0)
  /\ exists page : string,
       status_page (Toy.world_at 12345) Toy.db0 (Toy.request_of GET [] None ∅) None
       = Respond {| status := 200; res := Html page |} Toy.db0
       /\ ~ machine_readable (Html page).
Proof.
  split; [reflexivity|]. eexists. split; [reflexivity | intros []].
Qed.

(* ===================================================================== *)
(** * Further properties of the handlers *)
(* ===================================================================== *)

(** ** Reading and deleting by identifier *)

Section ById.
Context `{JsNumber} `{EqDecision number} `{Bson} `{Jws} `{Bcrypt}.

Lemma findById_doc_without (coll : list document) (o o' : ObjectId) :
  findById_doc (without coll o) o'
  = if decide (o' = o) then None else findById_doc coll o'.
Proof.
  unfold findById_doc, without. induction coll as [|x rest IH]; simpl.
  - destruct (decide (o' = o)); reflexivity.
  - destruct (bool_decide (_id x = o)) eqn:Hx; simpl.
    + apply bool_decide_eq_true in Hx. rewrite IH.
      destruct (decide (o' = o)) as [->|Hne]; [reflexivity|].
      rewrite bool_decide_eq_false_2 by congruence. reflexivity.
    + apply bool_decide_eq_false in Hx.
      destruct (bool_decide (_id x = o')) eqn:Hx'.
      * apply bool_decide_eq_true in Hx'.
        destruct (decide (o' = o)); [congruence | reflexivity].
      * exact IH.
Qed.

(** DELETE on a station that exists answers 200 and removes it: a later
    GET of the same identifier answers 404, every other identifier finds
    what it found before, and users and measurements are untouched. *)
Theorem station_delete_then_get (w : world) (db : DB) (req : request)
    (u : option User) (o : ObjectId) (d : document) :
  ObjectId_of_string (params_id req) = Some o ->
  findById_doc (stations db) o = Some d ->
  let db' := with_stations db (without (stations db) o) in
  station_delete w db req u
  = Respond {| status := 200; res := MessageJson "Station deleted successfully" |} db'
  /\ (forall (w' : world) (req' : request) (u' : option User),
        ObjectId_of_string (params_id req') = Some o ->
        station_get w' db' req' u'
        = Respond (json_error 404 (Text "Station not found")) db')
  /\ (forall o', o' <> o ->
        findById_doc (stations db') o' = findById_doc (stations db) o')
  /\ users db' = users db /\ measurements db' = measurements db.
Proof.
  intros Hid Hfound db'. split; [|split; [|split]].
  - unfold station_delete, Model_findByIdAndDelete. rewrite Hid, Hfound. reflexivity.
  - intros w' req' u' Hid'. unfold station_get, Model_findById. rewrite Hid'.
    cbn [stations db' with_stations]. rewrite findById_doc_without.
    destruct (decide (o = o)); [reflexivity | contradiction].
  - intros o' Hne. cbn [stations db' with_stations]. rewrite findById_doc_without.
    destruct (decide (o' = o)); [contradiction | reflexivity].
  - split; reflexivity.
Qed.

(** An identifier that is not well formed is answered differently by the
    verbs: GET and DELETE answer 500, PUT and PATCH (for a body without
    operators) answer 400, all with the message of the failed cast and
    without touching the store. *)
Theorem station_malformed_id (w : world) (db : DB) (req : request)
    (u : option User) :
  ObjectId_of_string (params_id req) = None ->
  station_get w db req u = Respond (json_error 500 (MongooseMessage (CastError "_id"))) db
  /\ station_delete w db req u
     = Respond (json_error 500 (MongooseMessage (CastError "_id"))) db
  /\ (has_dollar_keys (body req) = false ->
      station_put w db req u
      = Respond (json_error 400 (MongooseMessage (CastError "_id"))) db
      /\ station_patch w db req u
         = Respond (json_error 400 (MongooseMessage (CastError "_id"))) db).
Proof.
  intros Hid. split; [|split].
  - unfold station_get, Model_findById. rewrite Hid. reflexivity.
  - unfold station_delete, Model_findByIdAndDelete. rewrite Hid. reflexivity.
  - intros Hd. split.
    + unfold station_put, Model_findByIdAndOverwrite. rewrite Hd, Hid. reflexivity.
    + unfold station_patch, Model_findByIdAndUpdate. rewrite Hd, Hid. reflexivity.
Qed.

(** A well-formed identifier that names no station: GET and DELETE answer
    404 'Station not found'; PUT and PATCH answer 404 or, when the body
    fails casting or validation, 400; in no case is the store changed. *)
Theorem station_unknown_id (w : world) (db : DB) (req : request)
    (u : option User) (o : ObjectId) :
  ObjectId_of_string (params_id req) = Some o ->
  findById_doc (stations db) o = None ->
  let not_found := Respond (json_error 404 (Text "Station not found")) db in
  station_get w db req u = not_found
  /\ station_delete w db req u = not_found
  /\ (has_dollar_keys (body req) = false ->
      (station_put w db req u = not_found
       \/ exists e, station_put w db req u
                    = Respond (json_error 400 (MongooseMessage e)) db)
      /\ (station_patch w db req u = not_found
          \/ exists e, station_patch w db req u
                       = Respond (json_error 400 (MongooseMessage e)) db)).
Proof.
  intros Hid Hnone not_found. split; [|split].
  - unfold station_get, Model_findById. rewrite Hid, Hnone. reflexivity.
  - unfold station_delete, Model_findByIdAndDelete. rewrite Hid, Hnone. reflexivity.
  - intros Hd. split.
    + unfold station_put, Model_findByIdAndOverwrite, write_back, caught.
      rewrite Hd, Hid, Hnone.
      destruct (_ ++ invalid_paths stationSchema (body req)); [left | right]; eauto.
    + unfold station_patch, Model_findByIdAndUpdate, write_back, caught.
      rewrite Hd, Hid, Hnone.
      destruct (body_id (body req)); eauto;
        destruct (castUpdate stationSchema (body req)); eauto;
        destruct (update_invalid_paths stationSchema _); eauto.
Qed.

End ById.

Lemma station_delete_then_get_witness :
  let db' := with_stations Sample.db1 [Sample.station2] in
  station_delete (Toy.world_at 0) Sample.db1
    (Toy.request_of DELETE ["64b0000000000000000000a1"%string] None ∅) None
  = Respond {| status := 200; res := MessageJson "Station deleted successfully" |} db'
  /\ station_get (Toy.world_at 0) db'
       (Toy.request_of GET ["64b0000000000000000000a1"%string] None ∅) None
     = Respond (json_error 404 (Text "Station not found")) db'.
Proof.
  intros db'.
  destruct (station_delete_then_get (Toy.world_at 0) Sample.db1
              (Toy.request_of DELETE ["64b0000000000000000000a1"%string] None ∅) None
              "64b0000000000000000000a1"%string Toy.station1)
    as (Hdel & Hget & _); [reflexivity | reflexivity |].
  split; [exact Hdel|].
  apply (Hget (Toy.world_at 0)
           (Toy.request_of GET ["64b0000000000000000000a1"%string] None ∅) None).
  reflexivity.
Defined.

Lemma station_malformed_id_witness :
  station_get (Toy.world_at 0) Toy.db0
    (Toy.request_of GET ["42"%string] None ∅) None
  = Respond (json_error 500 (MongooseMessage (CastError "_id"))) Toy.db0
  /\ station_patch (Toy.world_at 0) Toy.db0
       (Toy.request_of PATCH ["42"%string] None Toy.rename_body) None
     = Respond (json_error 400 (MongooseMessage (CastError "_id"))) Toy.db0.
Proof.
  split.
  - apply (station_malformed_id (Toy.world_at 0) Toy.db0
             (Toy.request_of GET ["42"%string] None ∅) None). reflexivity.
  - apply (station_malformed_id (Toy.world_at 0) Toy.db0
             (Toy.request_of PATCH ["42"%string] None Toy.rename_body) None);
      reflexivity.
Defined.

Lemma station_unknown_id_witness :
  station_delete (Toy.world_at 0) Toy.db0
    (Toy.request_of DELETE ["64b0000000000000000000ee"%string] None ∅) None
  = Respond (json_error 404 (Text "Station not found")) Toy.db0.
Proof.
  apply (station_unknown_id (Toy.world_at 0) Toy.db0
           (Toy.request_of DELETE ["64b0000000000000000000ee"%string] None ∅) None
           "64b0000000000000000000ee"%string); reflexivity.
Defined.

(** ** Listing *)

Section Listing.
Context `{JsNumber} `{EqDecision number} `{Bson} `{Jws} `{Bcrypt}.

Lemma query_filter_spec (req : request) (k : string) (d : document) :
  forallb (fun kv => bool_decide (fields d !! fst kv = Some (snd kv)))
          (query_filter req k) = true
  <-> (forall q, query req !! k = Some q -> q <> ""%string ->
         fields d !! k = Some (VStr q)).
Proof.
  unfold query_filter. destruct (query req !! k) as [q|]; [|split; [congruence|reflexivity]].
  simpl. destruct (String.eqb_spec q ""); simpl.
  - split; [intros _ q' [= <-] Hq'; contradiction | reflexivity].
  - rewrite andb_true_r, bool_decide_eq_true. split.
    + intros Hd q' [= <-] _. exact Hd.
    + intros Hall. apply Hall; [reflexivity | assumption].
Qed.

Lemma filter_sublist {A : Type} (f : A -> bool) (l : list A) :
  sublist (List.filter f l) l.
Proof.
  induction l as [|x rest IH]; simpl; [constructor|].
  destruct (f x); [apply sublist_skip | apply sublist_cons]; exact IH.
Qed.

(** GET /stations, for query parameters that are strings, answers 200 with
    exactly the stored stations whose name equals the [name] parameter and
    whose type equals the [type] parameter, in stored order; a parameter
    that is absent or empty does not filter, so a request without
    parameters lists every station.  The store is not changed. *)
Theorem station_list_filters (w : world) (db : DB) (req : request)
    (u : option User) :
  exists l : list document,
    station_list w db req u = Respond {| status := 200; res := DocsJson l |} db
    /\ sublist l (stations db)
    /\ (forall d, In d l <->
          In d (stations db)
          /\ (forall q, query req !! "name"%string = Some q -> q <> ""%string ->
                fields d !! "name"%string = Some (VStr q))
          /\ (forall q, query req !! "type"%string = Some q -> q <> ""%string ->
                fields d !! "type"%string = Some (VStr q)))
    /\ (query req !! "name"%string = None -> query req !! "type"%string = None ->
        l = stations db).
Proof.
  eexists. split; [reflexivity|]. unfold Model_find. split; [|split].
  - apply filter_sublist.
  - intros d. rewrite filter_In, forallb_app, andb_true_iff.
    rewrite !query_filter_spec. reflexivity.
  - intros Hn Ht. unfold query_filter. rewrite Hn, Ht. simpl.
    induction (stations db) as [|x rest IH]; simpl; [reflexivity|].
    rewrite IH. reflexivity.
Qed.

(** GET /measurements with a non-empty string as [station_id] parameter
    answers 500 when the parameter is not a well-formed identifier;
    otherwise it answers 200 with exactly the stored measurements that
    reference that identifier, each with its station resolved (null when
    no station bears the identifier).  The store is not changed. *)
Theorem measurement_list_by_station (w : world) (db : DB) (req : request)
    (u : option User) (q : string) :
  query req !! "station_id"%string = Some q -> q <> ""%string ->
  (ObjectId_of_string q = None ->
   measurement_list w db req u
   = Respond (json_error 500 (MongooseMessage (CastError "station_id"))) db)
  /\ (forall o, ObjectId_of_string q = Some o ->
        exists l : list document,
          measurement_list w db req u
          = Respond {| status := 200; res := PopulatedsJson (populate db <$> l) |} db
          /\ (forall m, In m l <->
                In m (measurements db)
                /\ fields m !! "station_id"%string = Some (VId o))
          /\ (forall m, In m l ->
                pop_station (populate db m) = findById_doc (stations db) o)).
Proof.
  intros Hq Hne. unfold measurement_list. rewrite Hq.
  rewrite (truthy_token q Hne). split.
  - intros ->. reflexivity.
  - intros o ->. eexists. split; [reflexivity|].
    assert (Hin : forall m,
              In m (Model_find (measurements db) [("station_id"%string, VId o)]) <->
              In m (measurements db) /\ fields m !! "station_id"%string = Some (VId o)).
    { intros m. unfold Model_find. rewrite filter_In. simpl.
      rewrite andb_true_r, bool_decide_eq_true. reflexivity. }
    split; [exact Hin|].
    intros m Hm. apply Hin in Hm as [_ Hs]. unfold populate. simpl. rewrite Hs.
    reflexivity.
Qed.

End Listing.

Lemma measurement_list_by_station_witness :
  measurement_list (Toy.world_at 0) Sample.db1
    (Sample.request_with GET [] {[ "station_id"%string := "xyz"%string ]} None ∅) None
  = Respond (json_error 500 (MongooseMessage (CastError "station_id"))) Sample.db1.
Proof.
  apply (measurement_list_by_station (Toy.world_at 0) Sample.db1
           (Sample.request_with GET [] {[ "station_id"%string := "xyz"%string ]} None ∅)
           None "xyz"%string); [reflexivity | discriminate | reflexivity].
Defined.

(** ** Measurements and the stations they reference *)

Section References.
Context `{JsNumber} `{EqDecision number} `{Bson} `{Jws} `{Bcrypt}.

Lemma measurement_post_valid (w : world) (db : DB) (req : request)
    (u : option User) (n : number) (s : string) (o : ObjectId) :
  let d := {| _id := newObjectId w;
              fields := <["value"%string := VNum n]>
                        (<["station_id"%string := VId o]> ∅) |} in
  body req !! "value"%string = Some (JNum n) ->
  body req !! "station_id"%string = Some (JStr s) ->
  ObjectId_of_string s = Some o ->
  body req !! "_id"%string = None ->
  findById_doc (measurements db) (newObjectId w) = None ->
  measurement_post w db req u
  = Respond {| status := 201; res := DocJson d |}
            (with_measurements db (measurements db ++ [d])).
Proof.
  intros d Hvalue Hstation Hcast Hid Hfresh.
  unfold measurement_post, Model_save, body_id, invalid_paths,
    measurementSchema, path_invalid.
  cbn [List.filter cast_fields p_name p_kind p_required].
  rewrite Hid, Hvalue, Hstation.
  cbn [cast castNumber castObjectId checkRequired mbind option_bind].
  rewrite Hcast.
  cbn [fmap option_fmap option_map negb andb List.filter list_fmap app
       mbind option_bind checkRequired].
  rewrite Hfresh. reflexivity.
Qed.

(** A measurement created with a numeric value and a well-formed
    station_id is read back by GET on its identifier with the reference
    resolved: the embedded station is the stored station that bears the
    identifier, and null when there is none. *)
Theorem measurement_create_then_get (w : world) (db : DB) (req : request)
    (u : option User) (n : number) (s : string) (o : ObjectId) :
  let d := {| _id := newObjectId w;
              fields := <["value"%string := VNum n]>
                        (<["station_id"%string := VId o]> ∅) |} in
  let db' := with_measurements db (measurements db ++ [d]) in
  body req !! "value"%string = Some (JNum n) ->
  body req !! "station_id"%string = Some (JStr s) ->
  ObjectId_of_string s = Some o ->
  body req !! "_id"%string = None ->
  findById_doc (measurements db) (newObjectId w) = None ->
  measurement_post w db req u = Respond {| status := 201; res := DocJson d |} db'
  /\ forall (w' : world) (req' : request) (u' : option User),
       ObjectId_of_string (params_id req') = Some (newObjectId w) ->
       measurement_get w' db' req' u'
       = Respond {| status := 200;
                    res := PopulatedJson
                             {| pop_doc := d;
                                pop_station := findById_doc (stations db) o |} |} db'.
Proof.
  intros d db' Hvalue Hstation Hcast Hid Hfresh.
  split; [apply (measurement_post_valid w db req u n s o); assumption|].
  intros w' req' u' Hid'. unfold measurement_get, Model_findById. rewrite Hid'.
  change (measurements db') with (measurements db ++ [d]).
  change (newObjectId w) with (_id d).
  rewrite (findById_doc_appended (measurements db) d Hfresh).
  unfold populate. cbn [fields d].
  rewrite lookup_insert_ne by discriminate. rewrite lookup_insert_eq. reflexivity.
Qed.

(** Deleting a station does not cascade: the measurements are left as they
    are, and a measurement that referenced the station, which GET showed
    with the station embedded, is shown afterwards with a null station. *)
Theorem station_delete_orphans_measurements (w : world) (db : DB)
    (req req_m : request) (u : option User) (o : ObjectId) (d m : document) :
  ObjectId_of_string (params_id req) = Some o ->
  findById_doc (stations db) o = Some d ->
  ObjectId_of_string (params_id req_m) = Some (_id m) ->
  findById_doc (measurements db) (_id m) = Some m ->
  fields m !! "station_id"%string = Some (VId o) ->
  let db' := with_stations db (without (stations db) o) in
  measurement_get w db req_m u
  = Respond {| status := 200;
               res := PopulatedJson {| pop_doc := m; pop_station := Some d |} |} db
  /\ station_delete w db req u
     = Respond {| status := 200; res := MessageJson "Station deleted successfully" |} db'
  /\ measurements db' = measurements db
  /\ measurement_get w db' req_m u
     = Respond {| status := 200;
                  res := PopulatedJson {| pop_doc := m; pop_station := None |} |} db'.
Proof.
  intros Hid Hd Hidm Hm Href db'. split; [|split; [|split]].
  - unfold measurement_get, Model_findById, populate. rewrite Hidm, Hm, Href, Hd.
    reflexivity.
  - unfold station_delete, Model_findByIdAndDelete. rewrite Hid, Hd. reflexivity.
  - reflexivity.
  - unfold measurement_get, Model_findById, populate. rewrite Hidm.
    change (measurements db') with (measurements db). rewrite Hm, Href.
    change (stations db') with (without (stations db) o).
    rewrite findById_doc_without.
    destruct (decide (o = o)); [reflexivity | contradiction].
Qed.

End References.

Lemma measurement_create_then_get_witness :
  let d := {| _id := "64b0000000000000000000ff"%string;
              fields := {[ "value"%string := VNum 7;
                           "station_id"%string := VId "64b0000000000000000000a1"%string ]} |} in
  let db' := with_measurements Sample.db1 [Sample.measurement1; d] in
  measurement_post (Toy.world_at 0) Sample.db1
    (Toy.request_of POST [] None Sample.attached_body) None
  = Respond {| status := 201; res := DocJson d |} db'
  /\ measurement_get (Toy.world_at 0) db'
       (Toy.request_of GET ["64b0000000000000000000ff"%string] None ∅) None
     = Respond {| status := 200;
                  res := PopulatedJson {| pop_doc := d;
                                          pop_station := Some Toy.station1 |} |} db'.
Proof.
  intros d db'.
  destruct (measurement_create_then_get (Toy.world_at 0) Sample.db1
              (Toy.request_of POST [] None Sample.attached_body) None
              7 "64b0000000000000000000a1"%string "64b0000000000000000000a1"%string)
    as [Hpost Hget]; [reflexivity..|].
  split; [exact Hpost|].
  apply (Hget (Toy.world_at 0)
           (Toy.request_of GET ["64b0000000000000000000ff"%string] None ∅) None).
  reflexivity.
Defined.

Lemma station_delete_orphans_measurements_witness :
  let db' := with_stations Sample.db1 [Sample.station2] in
  measurement_get (Toy.world_at 0) db'
    (Toy.request_of GET ["64b0000000000000000000c1"%string] None ∅) None
  = Respond {| status := 200;
               res := PopulatedJson {| pop_doc := Sample.measurement1;
                                       pop_station := None |} |} db'.
Proof.
  intros db'.
  apply (station_delete_orphans_measurements (Toy.world_at 0) Sample.db1
           (Toy.request_of DELETE ["64b0000000000000000000a1"%string] None ∅)
           (Toy.request_of GET ["64b0000000000000000000c1"%string] None ∅) None
           "64b0000000000000000000a1"%string Toy.station1 Sample.measurement1);
    reflexivity.
Defined.

(** ** The application as a whole *)

Section Application.
Context `{JsNumber} `{EqDecision number} `{Bson} `{Jws} `{Bcrypt}.

(** An answer of a router is the answer of one of its layers that matched
    the request, run on the store the router was given. *)
Lemma dispatch_sent (stack : list layer) (w : world) (db : DB) (req : request)
    (u : option User) (t : list string) (r : response) (db' : DB) :
  dispatch stack w db req u = (t, Sent r db') ->
  exists (l : layer) (u' : option User),
    In l stack /\ l_match l req = true /\ l_handle l w db req u' = Respond r db'.
Proof.
  revert u t. induction stack as [|l rest IH]; simpl; intros u t; [discriminate|].
  destruct (l_match l req) eqn:Hmatch.
  - destruct (l_handle l w db req u) as [r0 db0|u0|] eqn:Hhandle.
    + intros [= <- <- <-]. exists l, u. auto.
    + destruct (dispatch rest w db req u0) as [t0 s0] eqn:Hrest.
      intros [= <- ->]. destruct (IH _ _ Hrest) as (l' & u' & Hin & Hm & Hh).
      exists l', u'. auto.
    + discriminate.
  - intros Hrest. destruct (IH _ _ Hrest) as (l' & u' & Hin & Hm & Hh).
    exists l', u'. auto.
Qed.

(** An answer of the application is Express's 404 on the unchanged store,
    or the answer of a layer of the router mounted at the first segment of
    the path. *)
Lemma app_sent (w : world) (db : DB) (req : request) (t : list string)
    (r : response) (db' : DB) :
  app w db req = (t, Sent r db') ->
  (r = {| status := 404; res := DefaultNotFound |} /\ db' = db)
  \/ exists (prefix : string) (rest : list string) (router : list layer)
            (l : layer) (u' : option User),
       path req = prefix :: rest /\ In (prefix, router) mounts /\ In l router
       /\ l_match l (mounted req rest) = true
       /\ l_handle l w db (mounted req rest) u' = Respond r db'.
Proof.
  unfold app.
  assert (Huse : forall ms t0 r0 db0,
            app_use ms w db req = (t0, Sent r0 db0) ->
            exists prefix rest router l u',
              path req = prefix :: rest /\ In (prefix, router) ms /\ In l router
              /\ l_match l (mounted req rest) = true
              /\ l_handle l w db (mounted req rest) u' = Respond r0 db0).
  { induction ms as [|[prefix router] ms IH]; simpl; intros t0 r0 db0; [discriminate|].
    destruct (path req) as [|seg tail] eqn:Hpath.
    - intros Hms. destruct (IH _ _ _ Hms) as (p & rs & _ & _ & _ & Hp & _). discriminate.
    - destruct (String.eqb_spec seg prefix) as [->|Hne].
      + destruct (dispatch router w db (mounted req tail) None) as [t1 [r1 db1| |]] eqn:Hd.
        * intros [= <- <- <-].
          destruct (dispatch_sent _ _ _ _ _ _ _ _ Hd) as (l & u' & Hin & Hm & Hh).
          exists prefix, tail, router, l, u'. auto 10.
        * destruct (app_use ms w db req) as [t2 s2] eqn:Hms. intros [= <- ->].
          destruct (IH _ _ _ eq_refl) as (p & rs & rt & l & u' & Hp & Hin & Hrest).
          exists p, rs, rt, l, u'. auto 10.
        * discriminate.
      + intros Hms.
        destruct (IH _ _ _ Hms) as (p & rs & rt & l & u' & Hp & Hin & Hrest).
        exists p, rs, rt, l, u'. auto 10. }
  destruct (app_use mounts w db req) as [t0 [r0 db0| |]] eqn:Hmounts.
  - intros [= <- <- <-]. right. apply (Huse _ _ _ _ Hmounts).
  - destruct (path req) as [|seg tail]; [intros [= <- <- <-]; left; auto|].
    destruct (String.eqb seg "api-docs"); [discriminate|].
    intros [= <- <- <-]. left. auto.
  - discriminate.
Qed.

(** Whatever the middleware answers, it answers on the store it read. *)
Lemma authenticateToken_frame (w : world) (db : DB) (req : request)
    (u : option User) (r : response) (db' : DB) :
  authenticateToken w db req u = Respond r db' -> db' = db.
Proof.
  destruct (authenticateToken_rejects w db req u) as [(u' & ->) | (m & ->)];
    [discriminate | intros [= <- <-]; reflexivity].
Qed.

Lemma login_frame (w : world) (db : DB) (req : request) (u : option User)
    (r : response) (db' : DB) :
  login w db req u = Respond r db' -> db' = db.
Proof.
  unfold login.
  destruct (User_findOne db _) as [[user|]|]; [| |discriminate].
  - destruct (bcrypt_compare _ _) as [m|[|]].
    + intros [= <- <-]. reflexivity.
    + destruct (generateToken w (u_id user)); intros [= <- <-]; reflexivity.
    + intros [= <- <-]. reflexivity.
  - intros [= <- <-]. reflexivity.
Qed.

(** No request changes the credential store: whatever the application
    answers, the users afterwards are the users before. *)
Theorem app_never_writes_users (w : world) (db : DB) (req : request)
    (t : list string) (r : response) (db' : DB) :
  app w db req = (t, Sent r db') -> users db' = users db.
Proof.
  intros Happ. apply app_sent in Happ as [[_ ->] | Hlayer]; [reflexivity|].
  destruct Hlayer as (prefix & rest & router & l & u' & _ & Hmount & Hl & _ & Hh).
  set (req' := mounted req rest) in *. clearbody req'.
  simpl in Hmount.
  destruct Hmount as [[= <- <-] | [[= <- <-] | [[= <- <-] | []]]]; simpl in Hl;
    repeat (destruct Hl as [<- | Hl]; [simpl in Hh|]); try destruct Hl.
  - apply login_frame in Hh as ->. reflexivity.
  - apply authenticateToken_frame in Hh as ->. reflexivity.
  - injection Hh as <- <-. reflexivity.
  - unfold station_get in Hh. destruct (Model_findById _ _) as [e|[d|]];
      injection Hh as <- <-; reflexivity.
  - unfold station_post in Hh. destruct (Model_save _ _ _ _) as [e|[d c]];
      injection Hh as <- <-; reflexivity.
  - unfold station_put in Hh. destruct (Model_findByIdAndOverwrite _ _ _ _);
      try discriminate; injection Hh as <- <-; reflexivity.
  - unfold station_patch in Hh. destruct (Model_findByIdAndUpdate _ _ _ _);
      try discriminate; injection Hh as <- <-; reflexivity.
  - unfold station_delete in Hh. destruct (Model_findByIdAndDelete _ _) as [e|[[d c]|]];
      injection Hh as <- <-; reflexivity.
  - apply authenticateToken_frame in Hh as ->. reflexivity.
  - unfold measurement_list in Hh.
    destruct (query req' !! "station_id"%string) as [q|];
      [destruct (truthy (Some q)); [destruct (ObjectId_of_string q)|]|];
      injection Hh as <- <-; reflexivity.
  - unfold measurement_get in Hh. destruct (Model_findById _ _) as [e|[d|]];
      injection Hh as <- <-; reflexivity.
  - unfold measurement_post in Hh. destruct (Model_save _ _ _ _) as [e|[d c]];
      injection Hh as <- <-; reflexivity.
  - unfold measurement_put in Hh. destruct (Model_findByIdAndOverwrite _ _ _ _);
      try discriminate; injection Hh as <- <-; reflexivity.
  - unfold measurement_patch in Hh. destruct (Model_findByIdAndUpdate _ _ _ _);
      try discriminate; injection Hh as <- <-; reflexivity.
  - unfold measurement_delete in Hh.
    destruct (Model_findByIdAndDelete _ _) as [e|[[d c]|]];
      injection Hh as <- <-; reflexivity.
Qed.

End Application.

Lemma app_never_writes_users_witness :
  exists (t : list string) (r : response) (db' : DB),
    app (Toy.world_at 2000000) Toy.db0
      (Toy.request_of POST ["stations"%string]
         (Some ("Bearer " +:+ Toy.issued_token)) Toy.south_body)
    = (t, Sent r db')
    /\ status r = 201 /\ users db' = users Toy.db0.
Proof.
  eexists _, _, _. split; [reflexivity|]. split; [reflexivity|].
  eapply (app_never_writes_users (Toy.world_at 2000000) Toy.db0
            (Toy.request_of POST ["stations"%string]
               (Some ("Bearer " +:+ Toy.issued_token)) Toy.south_body)).
  reflexivity.
Defined.

Section Routing.
Context `{JsNumber} `{EqDecision number} `{Bson} `{Jws} `{Bcrypt}.

(** A GET request never changes the store, whatever the application
    answers. *)
Theorem app_get_is_safe (w : world) (db : DB) (req : request)
    (t : list string) (r : response) (db' : DB) :
  method req = GET -> app w db req = (t, Sent r db') -> db' = db.
Proof.
  intros Hget Happ. apply app_sent in Happ as [[_ ->] | Hlayer]; [reflexivity|].
  destruct Hlayer as (prefix & rest & router & l & u' & _ & Hmount & Hl & Hm & Hh).
  assert (Hmeth : method (mounted req rest) = GET) by exact Hget.
  set (req' := mounted req rest) in *. clearbody req'.
  simpl in Hmount.
  destruct Hmount as [[= <- <-] | [[= <- <-] | [[= <- <-] | []]]]; simpl in Hl;
    repeat (destruct Hl as [<- | Hl]; [simpl in Hh, Hm|]); try destruct Hl;
    try (unfold route in Hm; rewrite Hmeth in Hm; discriminate Hm);
    try (rewrite Hmeth in Hm; discriminate Hm);
    try (apply authenticateToken_frame in Hh; exact Hh).
  - injection Hh as <- <-. reflexivity.
  - unfold station_get in Hh. destruct (Model_findById _ _) as [e|[d|]];
      injection Hh as <- <-; reflexivity.
  - unfold measurement_list in Hh.
    destruct (query req' !! "station_id"%string) as [q|];
      [destruct (truthy (Some q)); [destruct (ObjectId_of_string q)|]|];
      injection Hh as <- <-; reflexivity.
  - unfold measurement_get in Hh. destruct (Model_findById _ _) as [e|[d|]];
      injection Hh as <- <-; reflexivity.
Qed.

(** The handlers behind the middleware read neither the Authorization
    header nor [req.user]. *)
Lemma handlers_ignore_user (w : world) (db : DB) (req1 req2 : request)
    (u1 u2 : option User) :
  method req2 = method req1 -> path req2 = path req1 ->
  query req2 = query req1 -> body req2 = body req1 ->
  dispatch (tl stationRoutes) w db req1 u1 = dispatch (tl stationRoutes) w db req2 u2
  /\ dispatch (tl measurementRoutes) w db req1 u1
     = dispatch (tl measurementRoutes) w db req2 u2.
Proof.
  destruct req1 as [m1 p1 q1 a1 b1], req2 as [m2 p2 q2 a2 b2]. simpl.
  intros -> -> -> ->. split; reflexivity.
Qed.

(** There is no authorization beyond the token: two requests to a
    protected router that differ only in their Authorization header, both
    accepted by the middleware (as whatever users, of whatever roles), get
    the same answer and have the same effect on the store. *)
Theorem protected_answer_ignores_user (w : world) (db : DB)
    (req1 req2 : request) (prefix : string) (rest : list string) (u1 u2 : User) :
  prefix = "stations"%string \/ prefix = "measurements"%string ->
  path req1 = prefix :: rest -> path req2 = path req1 ->
  method req2 = method req1 -> query req2 = query req1 -> body req2 = body req1 ->
  authenticateToken w db req1 None = Next (Some u1) ->
  authenticateToken w db req2 None = Next (Some u2) ->
  app w db req1 = app w db req2.
Proof.
  intros Hprefix Hp1 Hp2 Hm Hq Hb Ha1 Ha2.
  assert (Ha1' : authenticateToken w db (mounted req1 rest) None = Next (Some u1))
    by (rewrite <- Ha1; apply authenticateToken_token; reflexivity).
  assert (Ha2' : authenticateToken w db (mounted req2 rest) None = Next (Some u2))
    by (rewrite <- Ha2; apply authenticateToken_token; reflexivity).
  destruct (handlers_ignore_user w db (mounted req1 rest) (mounted req2 rest)
              (Some u1) (Some u2)) as [Hs Hms]; [assumption | reflexivity | assumption..|].
  assert (Es : forall req,
            dispatch stationRoutes w db req None
            = match authenticateToken w db req None with
              | Respond r db' => (["authenticateToken"%string], Sent r db')
              | Next user' =>
                  let '(t, s) := dispatch (tl stationRoutes) w db req user' in
                  ("authenticateToken"%string :: t, s)
              | Unmodelled => (["authenticateToken"%string], OutOfModel)
              end) by (intros; reflexivity).
  assert (Em : forall req,
            dispatch measurementRoutes w db req None
            = match authenticateToken w db req None with
              | Respond r db' => (["authenticateToken"%string], Sent r db')
              | Next user' =>
                  let '(t, s) := dispatch (tl measurementRoutes) w db req user' in
                  ("authenticateToken"%string :: t, s)
              | Unmodelled => (["authenticateToken"%string], OutOfModel)
              end) by (intros; reflexivity).
  unfold app, mounts. cbn [app_use]. rewrite Hp2, Hp1.
  destruct Hprefix as [-> | ->]; cbn [String.eqb Ascii.eqb Bool.eqb].
  - rewrite !Es, Ha1', Ha2', Hs. reflexivity.
  - rewrite !Em, Ha1', Ha2', Hms. reflexivity.
Qed.

End Routing.

Lemma app_get_is_safe_witness :
  exists (t : list string) (r : response) (db' : DB),
    app (Toy.world_at 2000000) Sample.db1
      (Toy.request_of GET ["stations"%string]
         (Some ("Bearer " +:+ Toy.issued_token)) ∅)
    = (t, Sent r db')
    /\ status r = 200 /\ db' = Sample.db1.
Proof.
  eexists _, _, _. split; [reflexivity|]. split; [reflexivity|].
  eapply (app_get_is_safe (Toy.world_at 2000000) Sample.db1
            (Toy.request_of GET ["stations"%string]
               (Some ("Bearer " +:+ Toy.issued_token)) ∅));
    reflexivity.
Defined.

Lemma protected_answer_ignores_user_witness :
  app (Toy.world_at 6000000) Sample.db1
    (Toy.request_of DELETE ["stations"; "64b0000000000000000000a1"]%string
       (Some ("Bearer " +:+ Toy.issued_token)) ∅)
  = app (Toy.world_at 6000000) Sample.db1
      (Toy.request_of DELETE ["stations"; "64b0000000000000000000a1"]%string
         (Some ("Bearer " +:+ Toy.postdated_token)) ∅).
Proof.
  apply (protected_answer_ignores_user (Toy.world_at 6000000) Sample.db1 _ _
           "stations"%string ["64b0000000000000000000a1"%string] Toy.admin Toy.admin);
    try reflexivity.
  left. reflexivity.
Defined.

Section Open.
Context `{JsNumber} `{EqDecision number} `{Bson} `{Jws} `{Bcrypt}.

(** POST /auth/login is not behind the middleware: the only layer that
    runs is the login handler, and two such requests with the same body
    get the same answer whatever their Authorization headers are. *)
Theorem login_needs_no_token (w : world) (db : DB) (req req' : request) :
  method req = POST -> path req = ["auth"; "login"]%string ->
  method req' = POST -> path req' = ["auth"; "login"]%string ->
  body req' = body req ->
  fst (app w db req) = ["POST /login"%string]
  /\ app w db req = app w db req'.
Proof.
  intros Hm Hp Hm' Hp' Hb.
  assert (E : forall r, method r = POST -> path r = ["auth"; "login"]%string ->
            app w db r
            = match login w db (mounted r ["login"%string]) None with
              | Respond r0 db0 => (["POST /login"%string], Sent r0 db0)
              | Next _ => (["POST /login"%string],
                           Sent {| status := 404; res := DefaultNotFound |} db)
              | Unmodelled => (["POST /login"%string], OutOfModel)
              end).
  { intros r Hmr Hpr. unfold app, mounts. cbn [app_use]. rewrite Hpr.
    cbn [String.eqb Ascii.eqb Bool.eqb]. unfold authRoutes.
    cbn [dispatch l_match l_handle l_name mounted method path].
    rewrite Hmr. simpl.
    destruct (login w db _ None) as [r0 db0|u0|]; reflexivity. }
  rewrite (E req Hm Hp), (E req' Hm' Hp').
  assert (Hlogin : login w db (mounted req' ["login"%string]) None
                   = login w db (mounted req ["login"%string]) None)
    by (unfold login; cbn [body mounted]; rewrite Hb; reflexivity).
  rewrite Hlogin. split; [|reflexivity].
  destruct (login w db (mounted req ["login"%string]) None); reflexivity.
Qed.


End Open.

Lemma login_needs_no_token_witness :
  app (Toy.world_at 1000000) Toy.db0
    (Toy.request_of POST ["auth"; "login"]%string None Sample.login_body)
  = app (Toy.world_at 1000000) Toy.db0
      (Toy.request_of POST ["auth"; "login"]%string (Some "Bearer nonsense"%string)
         Sample.login_body).
Proof.
  apply (login_needs_no_token (Toy.world_at 1000000) Toy.db0); reflexivity.
Defined.


(** ** Sessions *)

Section LoginErrors.
Context `{JsNumber} `{EqDecision number} `{Bson} `{Jws} `{Bcrypt}.

(** A login whose password is missing or is not a string is answered 401
    'Invalid credentials' when no user bears the username, and 500 with
    the message of the comparison that threw when a user does. *)
Theorem login_password_not_a_string (w : world) (db : DB) (req : request) :
  (forall p, body req !! "password"%string <> Some (JStr p)) ->
  (User_findOne db (body req !! "username"%string) = Some None ->
   login w db req None = Respond (json_error 401 (Text "Invalid credentials")) db)
  /\ (forall user,
        User_findOne db (body req !! "username"%string) = Some (Some user) ->
        login w db req None
        = Respond (json_error 500
            (Text ("Illegal arguments: " +:+ typeof (body req !! "password"%string)
                   +:+ ", string"))) db).
Proof.
  intros Hpw. split.
  - intros Hnone. unfold login. rewrite Hnone. reflexivity.
  - intros user Hfound. unfold login, bcrypt_compare. rewrite Hfound.
    destruct (body req !! "password"%string) as [[| | |p|]|]; try reflexivity.
    destruct (Hpw p eq_refl).
Qed.

(** With no usable signing secret in the environment, a login with a
    matching username and password is answered 500 with the message of
    the signing that threw; no token is issued. *)
Theorem login_without_secret (w : world) (db : DB) (req : request)
    (user : User) (pw : string) :
  usable_secret (JWT_SECRET w) = None ->
  User_findOne db (body req !! "username"%string) = Some (Some user) ->
  body req !! "password"%string = Some (JStr pw) ->
  bcrypt_check pw (u_password user) = true ->
  login w db req None
  = Respond (json_error 500 (Text "secretOrPrivateKey must have a value")) db.
Proof.
  intros Hsecret Hfound Hpw Hcheck.
  unfold login, bcrypt_compare, generateToken, jwt_sign.
  rewrite Hfound, Hpw, Hcheck, Hsecret. reflexivity.
Qed.

End LoginErrors.

Lemma login_password_not_a_string_witness :
  login (Toy.world_at 0) Toy.db0
    (Toy.request_of POST ["login"%string] None Sample.numeric_password_body) None
  = Respond (json_error 500 (Text "Illegal arguments: number, string")) Toy.db0.
Proof.
  refine (proj2 (login_password_not_a_string (Toy.world_at 0) Toy.db0
            (Toy.request_of POST ["login"%string] None Sample.numeric_password_body) _)
            Toy.admin _).
  - intros p. vm_compute. discriminate.
  - reflexivity.
Defined.

Lemma login_without_secret_witness :
  let w := {| JWT_SECRET := Some ""%string; NODE_ENV := None; Date_now := 0;
              uptime := 0%N; pkg_version := "1.0.0"%string;
              newObjectId := "64b0000000000000000000ff"%string |} in
  login w Toy.db0 (Toy.request_of POST ["login"%string] None Sample.login_body) None
  = Respond (json_error 500 (Text "secretOrPrivateKey must have a value")) Toy.db0.
Proof.
  intros w.
  apply (login_without_secret w Toy.db0 _ Toy.admin "admin123"); reflexivity.
Defined.

Section Issued.
Context `{JsNumber} `{EqDecision number} `{Bson} `{Jws} `{Bcrypt}.

Variables (w : world) (user : User) (key : string).

Let issued : jwt_payload :=
  {| userId := Some (toHexString (u_id user));
     iat := Some (Date_now w / 1000); nbf := None;
     exp := Some (Date_now w / 1000 + 86400) |}.
Let input : string := jws_secured_input "HS256" issued.
Let token : string := input +:+ "." +:+ hmac "HS256" key input.

Hypothesis secret_configured : usable_secret (JWT_SECRET w) = Some key.
Hypothesis token_decodes :
  jws_decode token = Some {| alg := "HS256"; payload := issued;
                             secured_input := input;
                             signature := hmac "HS256" key input |}.
Hypothesis signature_not_empty : hmac "HS256" key input <> ""%string.
Hypothesis token_without_space : no_space token.
Hypothesis identifier_read_back :
  ObjectId_of_string (toHexString (u_id user)) = Some (u_id user).

Lemma generateToken_issues : generateToken w (u_id user) = inr token.
Proof. unfold generateToken, jwt_sign. rewrite secret_configured. reflexivity. Qed.

Lemma bearer_token (req : request) :
  authorization req = Some ("Bearer " +:+ token) ->
  header_token (authorization req) = Some token /\ truthy (Some token) = true.
Proof.
  intros ->. split; [|apply truthy_dotted].
  pose proof (header_token_second "Bearer" token "") as B.
  rewrite append_empty in B.
  apply B; [repeat split; discriminate | exact token_without_space | left; reflexivity].
Qed.

(** Rotating the secret ends the sessions: a token issued by
    [generateToken] under one secret is answered 401 'Invalid token' once
    the environment holds no usable secret, or another secret under which
    the signature differs. *)
Theorem issued_token_rejected_after_rotation (db : DB) (w' : world)
    (req : request) :
  authorization req = Some ("Bearer " +:+ token) ->
  usable_secret (JWT_SECRET w') = None
  \/ (exists key', usable_secret (JWT_SECRET w') = Some key'
                   /\ hmac "HS256" key' input <> hmac "HS256" key input) ->
  generateToken w (u_id user) = inr token
  /\ authenticateToken w' db req None
     = Respond (json_error 401 (Text "Invalid token")) db.
Proof.
  intros Hauth Hrot. split; [exact generateToken_issues|].
  destruct (bearer_token req Hauth) as [Htok Htruthy].
  unfold authenticateToken. rewrite Htok, Htruthy. simpl.
  unfold jwt_verify, jws_verify. rewrite token_decodes.
  destruct Hrot as [-> | (key' & -> & Hdiff)]; [reflexivity|]. simpl.
  destruct (decide (hmac "HS256" key input = ""%string)) as [|_]; [contradiction|].
  rewrite (bool_decide_eq_false_2 (hmac "HS256" key input = hmac "HS256" key' input))
    by congruence.
  destruct (bool_decide ("HS256"%string ∈ hs_algorithms)); reflexivity.
Qed.

(** Removing the user ends the sessions: a token issued by [generateToken]
    for a user, still signed correctly and not expired, is answered 401
    'User not found' by a store in which no user bears its identifier. *)
Theorem issued_token_rejected_without_user (db : DB) (w' : world)
    (req : request) :
  authorization req = Some ("Bearer " +:+ token) ->
  JWT_SECRET w' = JWT_SECRET w ->
  Date_now w' / 1000 < Date_now w / 1000 + 86400 ->
  (forall u, In u (users db) -> u_id u <> u_id user) ->
  generateToken w (u_id user) = inr token
  /\ authenticateToken w' db req None
     = Respond (json_error 401 (Text "User not found")) db.
Proof.
  intros Hauth Hsecret Hclock Hgone. split; [exact generateToken_issues|].
  destruct (bearer_token req Hauth) as [Htok Htruthy].
  unfold authenticateToken. rewrite Htok, Htruthy. simpl.
  unfold jwt_verify, jws_verify. rewrite token_decodes, Hsecret, secret_configured.
  simpl.
  destruct (decide (hmac "HS256" key input = ""%string)) as [|_]; [contradiction|].
  rewrite (bool_decide_eq_true_2 (hmac "HS256" key input = hmac "HS256" key input))
    by reflexivity.
  try rewrite (bool_decide_eq_true_2 ("HS256"%string ∈ hs_algorithms))
    by (apply list_elem_of_In; simpl; auto).
  simpl.
  destruct (Z.geb_spec (Date_now w' / 1000) (Date_now w / 1000 + 86400)) as [|_]; [lia|].
  unfold User_findById. simpl. rewrite identifier_read_back.
  destruct (List.find _ (users db)) as [u|] eqn:Hf; [|reflexivity].
  apply find_some in Hf as [Hin Hid]. apply bool_decide_eq_true in Hid.
  destruct (Hgone u Hin Hid).
Qed.

End Issued.

Lemma issued_token_rejected_after_rotation_witness :
  let rotated := {| JWT_SECRET := Some "n3w-s3cret"%string; NODE_ENV := None;
                    Date_now := 2000000; uptime := 0%N;
                    pkg_version := "1.0.0"%string;
                    newObjectId := "64b0000000000000000000ff"%string |} in
  generateToken (Toy.world_at 1000000) Toy.admin_id = inr Toy.issued_token
  /\ authenticateToken rotated Toy.db0
       (Toy.request_of GET [] (Some ("Bearer " +:+ Toy.issued_token)) ∅) None
     = Respond (json_error 401 (Text "Invalid token")) Toy.db0.
Proof.
  intros rotated.
  assert (Hsig : Toy.mac "HS256" Toy.secret Toy.issued_input <> ""%string)
    by discriminate.
  assert (Hns : no_space Toy.issued_token)
    by (vm_compute; repeat split; discriminate).
  assert (Hrot : usable_secret (JWT_SECRET rotated) = None
                 \/ exists key', usable_secret (JWT_SECRET rotated) = Some key'
                      /\ Toy.mac "HS256" key' Toy.issued_input
                         <> Toy.mac "HS256" Toy.secret Toy.issued_input).
  { right. exists "n3w-s3cret"%string. split; [reflexivity | discriminate]. }
  exact (issued_token_rejected_after_rotation (Toy.world_at 1000000) Toy.admin
           Toy.secret eq_refl eq_refl Hsig Hns Toy.db0 rotated
           (Toy.request_of GET [] (Some ("Bearer " +:+ Toy.issued_token)) ∅)
           eq_refl Hrot).
Defined.

Lemma issued_token_rejected_without_user_witness :
  generateToken (Toy.world_at 1000000) Toy.admin_id = inr Toy.issued_token
  /\ authenticateToken (Toy.world_at 2000000) Sample.empty_store
       (Toy.request_of GET [] (Some ("Bearer " +:+ Toy.issued_token)) ∅) None
     = Respond (json_error 401 (Text "User not found")) Sample.empty_store.
Proof.
  assert (Hsig : Toy.mac "HS256" Toy.secret Toy.issued_input <> ""%string)
    by discriminate.
  assert (Hns : no_space Toy.issued_token)
    by (vm_compute; repeat split; discriminate).
  assert (Hgone : forall u : User, In u (users Sample.empty_store) ->
                    u_id u <> u_id Toy.admin) by (intros u []).
  exact (issued_token_rejected_without_user (Toy.world_at 1000000) Toy.admin
           Toy.secret eq_refl eq_refl Hsig Hns eq_refl Sample.empty_store
           (Toy.world_at 2000000)
           (Toy.request_of GET [] (Some ("Bearer " +:+ Toy.issued_token)) ∅)
           eq_refl eq_refl eq_refl Hgone).
Defined.

(** ** Provisioning the administrator *)

Section Provisioning.
Context `{JsNumber} `{EqDecision number} `{Bson} `{Jws} `{Bcrypt} `{BcryptHash}.

Lemma find_app_none {A : Type} (f : A -> bool) (l : list A) (x : A) :
  List.find f l = None -> List.find f (l ++ [x]) = if f x then Some x else None.
Proof.
  induction l as [|y rest IH]; simpl; [reflexivity|].
  destruct (f y); [discriminate | exact IH].
Qed.

(** The script is idempotent: after a run that exits with code 0, a second
    run finds the administrator, leaves the store as it is and exits with
    code 0 again. *)
Theorem createAdminUser_idempotent (e : admin_env) (db db' : DB) (log : string) :
  createAdminUser e db = Exit 0 log db' ->
  createAdminUser e db' = Exit 0 "Admin user already exists" db'.
Proof.
  unfold createAdminUser.
  destruct (List.find _ (users db)) as [existing|] eqn:Hname.
  - intros [= <- <-]. rewrite Hname. reflexivity.
  - destruct (List.find (fun u => bool_decide (u_id u = generated_id e)) (users db));
      [discriminate|].
    intros [= <- <-]. cbn [users with_users].
    rewrite (find_app_none _ _ _ Hname). cbn [pre_save u_username].
    rewrite String.eqb_refl. reflexivity.
Qed.

(** On a store without a user of the administrator's name and identifier,
    the script stores one user more, with role admin and the hash of the
    password in place of the password, and a login with that name and
    password is then answered 200 with a token for that user's
    identifier.  The hypotheses say that a signing secret is configured
    and that a password matches its own hash. *)
Theorem createAdminUser_then_login (e : admin_env) (w : world) (db : DB)
    (req : request) (key : string) :
  let name := or_else (ADMIN_USERNAME e) "admin" in
  let pw := or_else (ADMIN_PASSWORD e) "admin123" in
  let created := {| u_id := generated_id e; u_username := name;
                    u_password := bcrypt_hash pw 10; u_role := "admin" |} in
  let db' := with_users db (users db ++ [created]) in
  (forall u, In u (users db) -> u_username u <> name) ->
  (forall u, In u (users db) -> u_id u <> generated_id e) ->
  bcrypt_check pw (bcrypt_hash pw 10) = true ->
  usable_secret (JWT_SECRET w) = Some key ->
  body req !! "username"%string = Some (JStr name) ->
  body req !! "password"%string = Some (JStr pw) ->
  createAdminUser e db = Exit 0 "Admin user created successfully" db'
  /\ exists token : string,
       generateToken w (generated_id e) = inr token
       /\ login w db' req None
          = Respond {| status := 200; res := LoginJson token (generated_id e) |} db'.
Proof.
  intros name pw created db' Hname Hid Hhash Hkey Hu Hp.
  assert (Hfind : List.find (fun u => String.eqb (u_username u) name) (users db) = None).
  { destruct (List.find _ (users db)) as [u|] eqn:Hf; [|reflexivity].
    apply find_some in Hf as [Hin Heq]. apply String.eqb_eq in Heq.
    destruct (Hname u Hin Heq). }
  assert (Hfresh : List.find (fun u => bool_decide (u_id u = generated_id e)) (users db)
                   = None).
  { destruct (List.find (fun u => bool_decide (u_id u = generated_id e)) (users db))
      as [u|] eqn:Hf; [|reflexivity].
    apply find_some in Hf as [Hin Heq]. apply bool_decide_eq_true in Heq.
    destruct (Hid u Hin Heq). }
  split.
  - unfold createAdminUser. fold name. rewrite Hfind, Hfresh. reflexivity.
  - unfold generateToken, jwt_sign. rewrite Hkey. eexists. split; [reflexivity|].
    unfold login, User_findOne. rewrite Hu. cbn [users db' with_users].
    rewrite (find_app_none _ _ _ Hfind). cbn [created u_username].
    rewrite String.eqb_refl.
    unfold bcrypt_compare. rewrite Hp. cbn [created u_password]. rewrite Hhash.
    unfold generateToken, jwt_sign. rewrite Hkey. reflexivity.
Qed.

End Provisioning.

Lemma createAdminUser_idempotent_witness :
  let db' := with_users Sample.empty_store
               [{| u_id := Toy.admin_id; u_username := "admin";
                   u_password := "bcrypt:admin123"; u_role := "admin" |}] in
  createAdminUser Sample.provisioning Sample.empty_store
  = Exit 0 "Admin user created successfully" db'
  /\ createAdminUser Sample.provisioning db'
     = Exit 0 "Admin user already exists" db'.
Proof.
  intros db'. split; [reflexivity|].
  apply (createAdminUser_idempotent Sample.provisioning Sample.empty_store db'
           "Admin user created successfully").
  reflexivity.
Defined.

Lemma createAdminUser_then_login_witness :
  let db' := with_users Sample.empty_store [Toy.admin] in
  createAdminUser Sample.provisioning Sample.empty_store
  = Exit 0 "Admin user created successfully" db'
  /\ exists token : string,
       generateToken (Toy.world_at 1000000) Toy.admin_id = inr token
       /\ login (Toy.world_at 1000000) db'
            (Toy.request_of POST ["login"%string] None Sample.login_body) None
          = Respond {| status := 200; res := LoginJson token Toy.admin_id |} db'.
Proof.
  intros db'.
  assert (Hname : forall u : User, In u (users Sample.empty_store) ->
                    u_username u <> or_else (ADMIN_USERNAME Sample.provisioning) "admin")
    by (intros u []).
  assert (Hid : forall u : User, In u (users Sample.empty_store) ->
                  u_id u <> generated_id Sample.provisioning) by (intros u []).
  exact (createAdminUser_then_login Sample.provisioning (Toy.world_at 1000000)
           Sample.empty_store
           (Toy.request_of POST ["login"%string] None Sample.login_body)
           Toy.secret Hname Hid eq_refl eq_refl eq_refl eq_refl).
Defined.

(** ** What the writes keep *)

Section Keeping.
Context `{JsNumber} `{EqDecision number} `{Bson}.

Lemma cast_required (k : kind) (j : json) (v : value) :
  cast k j = Some v -> checkRequired v = true -> well_typed k v.
Proof.
  destruct k, j as [|[|]|n|s|]; simpl; intros Hc Hr;
    repeat match type of Hc with
           | context [decide ?P] => destruct (decide P)
           | context [Number_of_string ?s] => destruct (Number_of_string s)
           | context [ObjectId_of_string ?s] => destruct (ObjectId_of_string s)
           end;
    simpl in Hc; try discriminate; injection Hc as <-; simpl in *;
    try discriminate; try exact I;
    intros E; rewrite E in Hr; discriminate.
Qed.

Lemma unique_clash_false (schema : list path_spec) (coll : list document)
    (d x : document) (p : path_spec) :
  unique_clash schema coll d = false ->
  In p schema -> p_unique p = true -> In x coll -> _id x <> _id d ->
  fields x !! p_name p <> fields d !! p_name p.
Proof.
  intros Hclash Hp Hu Hx Hid Hsame.
  rewrite (unique_clash_true schema coll d x p Hp Hu Hx Hid Hsame) in Hclash.
  discriminate.
Qed.

Lemma store_ids (coll : list document) (d : document) :
  _id <$> store coll d = _id <$> coll.
Proof.
  unfold store. induction coll as [|x rest IH]; simpl; [reflexivity|].
  f_equal; [|exact IH].
  destruct (bool_decide (_id x = _id d)) eqn:Hx; [|reflexivity].
  apply bool_decide_eq_true in Hx. congruence.
Qed.

Lemma store_In (coll : list document) (d x : document) :
  In x (store coll d) -> x = d \/ (In x coll /\ _id x <> _id d).
Proof.
  unfold store. intros Hin. apply in_map_iff in Hin as (y & Hy & Hin).
  destruct (bool_decide (_id y = _id d)) eqn:Hb; [left; congruence|].
  apply bool_decide_eq_false in Hb. right. subst. auto.
Qed.

(** Writing back a document that clashes with no other keeps identifiers
    and unique values distinct. *)
Lemma store_unique (schema : list path_spec) (coll : list document) (d : document) :
  unique_documents schema coll -> unique_clash schema coll d = false ->
  unique_documents schema (store coll d).
Proof.
  intros [Hids Hvals] Hclash. split; [rewrite store_ids; exact Hids|].
  intros p x y Hp Hu Hx Hy Hsame.
  apply store_In in Hx as [-> | [Hx Hxd]], Hy as [-> | [Hy Hyd]].
  - reflexivity.
  - destruct (unique_clash_false schema coll d y p Hclash Hp Hu Hy Hyd). congruence.
  - destruct (unique_clash_false schema coll d x p Hclash Hp Hu Hx Hxd). congruence.
  - apply (Hvals p); assumption.
Qed.

Lemma append_unique (schema : list path_spec) (coll : list document) (d : document) :
  unique_documents schema coll -> findById_doc coll (_id d) = None ->
  unique_clash schema coll d = false ->
  unique_documents schema (coll ++ [d]).
Proof.
  intros [Hids Hvals] Hfresh Hclash. split.
  - rewrite fmap_app. apply List.NoDup_app; [exact Hids | |].
    + repeat constructor. intros [].
    + intros o Ho Hd. simpl in Hd.
      destruct Hd as [<- | []]. apply in_map_iff in Ho as (x & Hx & Hin).
      apply (findById_doc_none coll (_id d) x Hfresh Hin Hx).
  - intros p x y Hp Hu Hx Hy Hsame.
    apply in_app_or in Hx as [Hx | [<- | []]], Hy as [Hy | [<- | []]].
    + apply (Hvals p); assumption.
    + destruct (unique_clash_false schema coll d x p Hclash Hp Hu Hx
                  (findById_doc_none coll (_id d) x Hfresh Hx) Hsame).
    + destruct (unique_clash_false schema coll d y p Hclash Hp Hu Hy
                  (findById_doc_none coll (_id d) y Hfresh Hy) (eq_sym Hsame)).
    + reflexivity.
Qed.

Lemma without_unique (schema : list path_spec) (coll : list document) (o : ObjectId) :
  unique_documents schema coll -> unique_documents schema (without coll o).
Proof.
  intros [Hids Hvals]. split.
  - unfold without. clear Hvals. induction coll as [|x rest IH]; simpl; [constructor|].
    inversion Hids as [|? ? Hx Hrest]; subst.
    destruct (negb (bool_decide (_id x = o))); simpl; [|apply IH, Hrest].
    constructor; [|apply IH, Hrest].
    intros Hin. apply Hx. apply in_map_iff in Hin as (y & Hy & Hin).
    apply filter_In in Hin as [Hin _]. apply in_map_iff. eauto.
  - intros p x y Hp Hu Hx Hy. apply filter_In in Hx as [Hx _], Hy as [Hy _].
    apply (Hvals p); assumption.
Qed.

(** A document built from a body that passes validation is valid. *)
Lemma built_valid (schema : list path_spec) (body : gmap string json) (o : ObjectId) :
  List.NoDup (p_name <$> schema) -> invalid_paths schema body = [] ->
  valid_document schema {| _id := o; fields := cast_fields schema body |}.
Proof.
  intros Hnames Hvalid p Hp Hreq. cbn [fields].
  destruct (path_invalid body p) eqn:Hinv.
  - destruct (invalid_paths_has schema body p Hp Hinv Hvalid).
  - unfold path_invalid in Hinv. rewrite Hreq in Hinv.
    rewrite (cast_fields_lookup schema body p Hnames Hp).
    destruct (body !! p_name p) as [j|]; [|discriminate]. simpl.
    destruct (cast (p_kind p) j) as [v|] eqn:Hv; [|discriminate].
    exists v. split; [reflexivity|].
    apply (cast_required _ j v Hv). destruct (checkRequired v); [reflexivity|discriminate].
Qed.

(** A valid document stays valid under an update that passes the update
    validators. *)
Lemma updated_valid (schema : list path_spec) (body : gmap string json)
    (old : document) :
  List.NoDup (p_name <$> schema) ->
  castUpdate schema body = inr (cast_fields schema body) ->
  update_invalid_paths schema (cast_fields schema body) = [] ->
  valid_document schema old ->
  valid_document schema
    {| _id := _id old; fields := cast_fields schema body ∪ fields old |}.
Proof.
  intros Hnames Hcast Hvalid Hold p Hp Hreq. cbn [fields].
  destruct (cast_fields schema body !! p_name p) as [v|] eqn:Hv.
  - exists v. split; [apply lookup_union_Some_l; exact Hv|].
    assert (Hr : checkRequired v = true).
    { destruct (checkRequired v) eqn:Hr; [reflexivity|]. exfalso.
      unfold update_invalid_paths in Hvalid.
      assert (Hin : In p (List.filter (fun p =>
                match cast_fields schema body !! p_name p with
                | Some v => p_required p && negb (checkRequired v)
                | None => false
                end) schema)).
      { apply filter_In. split; [exact Hp|]. rewrite Hv, Hreq, Hr. reflexivity. }
      destruct (List.filter _ schema); [destruct Hin | discriminate]. }
    rewrite (cast_fields_lookup schema body p Hnames Hp) in Hv.
    destruct (body !! p_name p) as [j|]; [|discriminate]. simpl in Hv.
    apply (cast_required _ j v Hv Hr).
  - rewrite lookup_union_r by exact Hv. apply Hold; assumption.
Qed.

End Keeping.

Lemma measurementSchema_names : List.NoDup (p_name <$> measurementSchema).
Proof. repeat constructor; simpl; intuition discriminate. Qed.

Section Consistency.
Context `{JsNumber} `{EqDecision number} `{Bson} `{Jws} `{Bcrypt}.

Lemma write_back_doc (schema : list path_spec) (coll coll' : list document)
    (o : ObjectId) (new_id : id_choice)
    (change : gmap string value -> gmap string value) (d' : document) :
  write_back schema coll o new_id change = UDoc d' coll' ->
  exists old, findById_doc coll o = Some old
              /\ d' = {| _id := o; fields := change (fields old) |}
              /\ unique_clash schema coll d' = false
              /\ coll' = store coll d'.
Proof.
  unfold write_back. destruct (findById_doc coll o) as [old|]; [|discriminate].
  destruct (match new_id with
            | IdAbsent => true | IdIs o' => bool_decide (o' = o) | _ => false
            end); [|discriminate].
  destruct (unique_clash schema coll _) eqn:Hclash; [discriminate|].
  intros [= <- <-]. exists old. auto.
Qed.

(** Every way a model writes keeps the collection free of duplicates and
    its documents valid. *)
Lemma Model_writes_keep (schema : list path_spec) (coll : list document) :
  List.NoDup (p_name <$> schema) ->
  unique_documents schema coll ->
  (forall x, In x coll -> valid_document schema x) ->
  (forall fresh body d coll',
     Model_save schema coll fresh body = Returned (d, coll') ->
     unique_documents schema coll' /\ forall x, In x coll' -> valid_document schema x)
  /\ (forall id body d coll',
        Model_findByIdAndUpdate schema coll id body = UDoc d coll' ->
        unique_documents schema coll' /\ forall x, In x coll' -> valid_document schema x)
  /\ (forall id body d coll',
        Model_findByIdAndOverwrite schema coll id body = UDoc d coll' ->
        unique_documents schema coll' /\ forall x, In x coll' -> valid_document schema x)
  /\ (forall id d coll',
        Model_findByIdAndDelete coll id = Returned (Some (d, coll')) ->
        unique_documents schema coll' /\ forall x, In x coll' -> valid_document schema x).
Proof.
  intros Hnames Hunique Hvalid.
  assert (Hstore : forall d',
            unique_clash schema coll d' = false -> valid_document schema d' ->
            unique_documents schema (store coll d')
            /\ forall x, In x (store coll d') -> valid_document schema x).
  { intros d' Hclash Hd'. split; [apply store_unique; assumption|].
    intros x Hx. apply store_In in Hx as [-> | [Hx _]]; auto. }
  split; [|split; [|split]].
  - intros fresh body d coll'. unfold Model_save.
    destruct (_ ++ invalid_paths schema body) as [|k bad] eqn:Hbad; [|discriminate].
    apply app_eq_nil in Hbad as [_ Hbad].
    destruct (match body_id body with
              | IdAbsent => Some fresh | IdIs o => Some o | _ => None
              end) as [o|]; [|discriminate].
    destruct (findById_doc coll o) eqn:Hfresh; [discriminate|].
    destruct (unique_clash schema coll _) eqn:Hclash; [discriminate|].
    intros [= <- <-]. split; [apply append_unique; assumption|].
    intros x Hx. apply in_app_or in Hx as [Hx | [<- | []]]; [auto|].
    apply built_valid; assumption.
  - intros id body d coll'. unfold Model_findByIdAndUpdate.
    destruct (has_dollar_keys body); [discriminate|].
    destruct (ObjectId_of_string id) as [o|]; [|discriminate].
    destruct (castUpdate schema body) as [k|set] eqn:Hset;
      [destruct (body_id body); discriminate|].
    pose proof (castUpdate_inr _ _ _ Hset) as ->.
    destruct (update_invalid_paths schema (cast_fields schema body)) eqn:Hupd;
      [|destruct (body_id body); discriminate].
    intros Hw.
    assert (Hw' : exists nid, write_back schema coll o nid
                                (fun old => cast_fields schema body ∪ old) = UDoc d coll')
      by (destruct (body_id body); try discriminate; eauto).
    destruct Hw' as (nid & Hw').
    apply write_back_doc in Hw' as (old & Hold & -> & Hclash & ->).
    apply Hstore; [exact Hclash|].
    apply findById_doc_some in Hold as [Hin <-].
    apply updated_valid; auto.
  - intros id body d coll'. unfold Model_findByIdAndOverwrite.
    destruct (has_dollar_keys body); [discriminate|].
    destruct (ObjectId_of_string id) as [o|]; [|discriminate].
    destruct (_ ++ invalid_paths schema body) as [|k bad] eqn:Hbad; [|discriminate].
    apply app_eq_nil in Hbad as [_ Hbad].
    intros Hw. apply write_back_doc in Hw as (old & Hold & -> & Hclash & ->).
    apply Hstore; [exact Hclash|]. apply built_valid; assumption.
  - intros id d coll'. unfold Model_findByIdAndDelete.
    destruct (ObjectId_of_string id) as [o|]; [|discriminate].
    destruct (findById_doc coll o); [|discriminate].
    intros [= <- <-]. split; [apply (without_unique schema coll o Hunique)|].
    intros x Hx. apply filter_In in Hx as [Hx _]. auto.
Qed.


End Consistency.

Lemma sample_consistent : consistent Sample.db1.
Proof.
  assert (Hvalid : forall d, In d [Toy.station1; Sample.station2] ->
            valid_document stationSchema d).
  { intros d [<- | [<- | []]] p Hp _; simpl in Hp;
      repeat (destruct Hp as [<- | Hp]; [eexists; split; [reflexivity|];
                                         simpl; try exact I; discriminate|]);
      destruct Hp. }
  repeat split.
  - repeat constructor; simpl; intuition discriminate.
  - intros p d d' Hp Hu Hd Hd' Hsame. simpl in Hp, Hd, Hd'.
    repeat (destruct Hp as [<- | Hp]; [try discriminate Hu|]); [|destruct Hp].
    destruct Hd as [<- | [<- | []]], Hd' as [<- | [<- | []]];
      try reflexivity; vm_compute in Hsame; discriminate.
  - exact Hvalid.
  - repeat constructor. intros [].
  - intros p d d' Hp Hu Hd Hd' _. simpl in Hd, Hd'.
    destruct Hd as [<- | []], Hd' as [<- | []]. reflexivity.
  - intros m [<- | []] p Hp _. simpl in Hp.
    repeat (destruct Hp as [<- | Hp]; [eexists; split; [reflexivity|]; exact I|]).
    destruct Hp.
Qed.


(** ** Repeating an update *)

Section Idempotence.
Context `{JsNumber} `{EqDecision number} `{Bson} `{Jws} `{Bcrypt}.

Lemma existsb_others_store (g : document -> bool) (coll : list document)
    (d : document) :
  existsb (fun d' => negb (bool_decide (_id d' = _id d)) && g d') (store coll d)
  = existsb (fun d' => negb (bool_decide (_id d' = _id d)) && g d') coll.
Proof.
  unfold store. induction coll as [|x more IH]; [reflexivity|].
  rewrite fmap_cons. cbn [existsb]. rewrite IH. f_equal.
  destruct (bool_decide (_id x = _id d)) eqn:Hx; [|rewrite Hx; reflexivity].
  rewrite bool_decide_eq_true_2 by reflexivity. reflexivity.
Qed.

Lemma unique_clash_store (schema : list path_spec) (coll : list document)
    (d : document) :
  unique_clash schema (store coll d) d = unique_clash schema coll d.
Proof.
  unfold unique_clash. induction schema as [|p rest IH]; simpl; [reflexivity|].
  rewrite IH.
  rewrite (existsb_others_store
             (fun d' => bool_decide (fields d' !! p_name p = fields d !! p_name p))).
  reflexivity.
Qed.

Lemma store_store (coll : list document) (d : document) :
  store (store coll d) d = store coll d.
Proof.
  unfold store. induction coll as [|x rest IH]; [reflexivity|].
  rewrite !fmap_cons, IH. f_equal.
  destruct (bool_decide (_id x = _id d)) eqn:Hx; [|rewrite Hx; reflexivity].
  rewrite bool_decide_eq_true_2 by reflexivity. reflexivity.
Qed.

Lemma write_back_again (schema : list path_spec) (coll coll' : list document)
    (o : ObjectId) (new_id : id_choice)
    (change : gmap string value -> gmap string value) (d : document) :
  (forall f, change (change f) = change f) ->
  write_back schema coll o new_id change = UDoc d coll' ->
  write_back schema coll' o new_id change = UDoc d coll'.
Proof.
  intros Hidem Hw.
  pose proof (write_back_doc _ _ _ _ _ _ _ Hw) as (old & Hold & -> & Hclash & ->).
  set (d := {| _id := o; fields := change (fields old) |}) in *.
  unfold write_back in *. rewrite Hold in Hw.
  rewrite (findById_doc_store coll old d o Hold).
  destruct (decide (o = _id d)) as [_|Hne]; [|destruct (Hne eq_refl)].
  destruct (match new_id with
            | IdAbsent => true | IdIs o' => bool_decide (o' = o) | _ => false
            end); [|discriminate].
  cbn [fields d]. rewrite Hidem. fold d.
  rewrite unique_clash_store, Hclash, store_store. reflexivity.
Qed.


End Idempotence.

(** ** Seeding *)

Lemma decimal_inj (a b : N) : decimal a = decimal b -> a = b.
Proof.
  unfold decimal. intros E.
  assert (Hu : N.to_uint a = N.to_uint b).
  { apply (f_equal NilEmpty.uint_of_string) in E.
    rewrite !NilEmpty.usu in E. injection E as E. exact E. }
  rewrite <- (DecimalN.Unsigned.of_to a), <- (DecimalN.Unsigned.of_to b), Hu.
  reflexivity.
Qed.

Section Seeding.
Context `{JsNumber} `{EqDecision number} `{Bson}.

Lemma findById_doc_fresh (coll : list document) (o : ObjectId) :
  ~ In o (_id <$> coll) -> findById_doc coll o = None.
Proof.
  intros Hfresh. destruct (findById_doc coll o) as [d|] eqn:Hf; [|reflexivity].
  apply findById_doc_some in Hf as [Hin <-]. destruct Hfresh.
  apply in_map_iff. eauto.
Qed.

Lemma unique_clash_none (schema : list path_spec) (coll : list document)
    (d : document) :
  (forall p x, In p schema -> p_unique p = true -> In x coll -> _id x <> _id d ->
     fields x !! p_name p <> fields d !! p_name p) ->
  unique_clash schema coll d = false.
Proof.
  intros Hfree. destruct (unique_clash schema coll d) eqn:Hclash; [|reflexivity].
  unfold unique_clash in Hclash.
  apply existsb_exists in Hclash as (p & Hp & Hclash).
  apply andb_true_iff in Hclash as [Hu Hclash].
  apply existsb_exists in Hclash as (x & Hx & Hclash).
  apply andb_true_iff in Hclash as [Hid Hsame].
  apply negb_true_iff, bool_decide_eq_false in Hid.
  apply bool_decide_eq_true in Hsame.
  destruct (Hfree p x Hp Hu Hx Hid Hsame).
Qed.

(** Documents that are pairwise distinct from each other and from the
    stored ones all go in, in order. *)
Lemma insert_ordered_all (schema : list path_spec) (docs coll : list document) :
  unique_documents schema (coll ++ docs) ->
  insert_ordered schema coll docs = (None, coll ++ docs).
Proof.
  revert coll. induction docs as [|d rest IH]; intros coll Hu; simpl.
  - rewrite app_nil_r. reflexivity.
  - destruct Hu as [Hids Hvals].
    assert (Hfresh : forall x, In x coll -> _id x <> _id d).
    { intros x Hx E. rewrite fmap_app, fmap_cons in Hids.
      apply NoDup_remove_2 in Hids. apply Hids. apply in_or_app. left.
      rewrite <- E. apply in_map. exact Hx. }
    rewrite findById_doc_fresh.
    + rewrite unique_clash_none.
      * rewrite IH; [rewrite <- app_assoc; reflexivity|].
        rewrite <- app_assoc. split; assumption.
      * intros p x Hp Hp' Hx Hid Hsame. apply Hid.
        apply (Hvals p); auto; apply in_or_app; [left | right; left]; auto.
    + intros Hin. apply in_map_iff in Hin as (x & E & Hx).
      apply (Hfresh x Hx E).
Qed.

Lemma numbered_map {A : Type} (f : nat -> A) (n start : nat) :
  combine (seq start n) (f <$> seq start n) = (fun i => (i, f i)) <$> seq start n.
Proof.
  revert start. induction n as [|n IH]; intros start; simpl; [reflexivity|].
  f_equal. apply IH.
Qed.

End Seeding.

Lemma append_cons (a : ascii) (s t : string) : String a s +:+ t = String a (s +:+ t).
Proof. reflexivity. Qed.

Lemma append_cancel (a b c : string) : a +:+ b = a +:+ c -> b = c.
Proof.
  induction a as [|x a IH]; [exact id|].
  rewrite !append_cons. intros [= E]. exact (IH E).
Qed.

Section Seeded.
Context `{JsNumber} `{EqDecision number} `{Bson}.

Variable r : seed_draws.

Lemma station_data_valid (i : nat) :
  readable_position r i ->
  body_id (station_data r i) = IdAbsent
  /\ invalid_paths stationSchema (station_data r i) = [].
Proof.
  intros (Hlong & [x Hx] & Hlat & [y Hy]). split.
  - unfold body_id, station_data. simplify_map_eq. reflexivity.
  - unfold invalid_paths, stationSchema, station_data.
    cbn [List.filter]. unfold path_invalid. cbn [p_name p_kind p_required].
    simplify_map_eq. destruct (draw_automatic r i); reflexivity.
Qed.

Lemma station_code (i : nat) :
  fields (seeded_station r i) !! "code"%string
  = Some (VStr ("STATION_CODE_" +:+ decimal (N.of_nat (i + 1)))).
Proof.
  unfold seeded_station. cbn [fields].
  rewrite (cast_fields_lookup stationSchema (station_data r i) code_path
             stationSchema_names) by (simpl; auto 10).
  unfold station_data, code_path. cbn [p_name p_kind].
  simplify_map_eq. reflexivity.
Qed.

Lemma build_all_stations (l : list nat) :
  (forall i, In i l -> readable_position r i) ->
  build_all stationSchema ((fun i => (station_oid r i, station_data r i)) <$> l)
  = inr (seeded_station r <$> l).
Proof.
  induction l as [|i rest IH]; intros Hl; [reflexivity|].
  rewrite !fmap_cons. cbn [build_all]. unfold build.
  destruct (station_data_valid i (Hl i (or_introl eq_refl))) as [-> ->].
  cbn [app]. rewrite IH by (intros k Hk; apply Hl; right; exact Hk).
  reflexivity.
Qed.

(** Distinct identifiers make the seeded stations pairwise distinct: their
    codes differ with their rank. *)
Lemma seeded_unique (l : list nat) :
  List.NoDup (station_oid r <$> l) ->
  unique_documents stationSchema (seeded_station r <$> l).
Proof.
  intros Hids. split.
  - rewrite <- list_fmap_compose. exact Hids.
  - intros p d d' Hp Hu Hd Hd' Hsame.
    apply in_map_iff in Hd as (i & <- & _), Hd' as (k & <- & _).
    simpl in Hp.
    repeat (destruct Hp as [<- | Hp]; [try discriminate Hu|]); [|destruct Hp].
    cbn [p_name] in Hsame. rewrite !station_code in Hsame.
    injection Hsame as Hsame. apply append_cancel in Hsame.
    apply decimal_inj, Nat2N.inj in Hsame.
    assert (E : i = k) by lia. rewrite E. reflexivity.
Qed.

(** The objects pushed to [measurementsData] for the [i]-th station. *)
Lemma measurementsData_flat (l : list nat) (n : nat) :
  flat_map (fun '(i, station) => measurement_document r i station <$> seq 0 n)
           ((fun i => (i, seeded_station r i)) <$> l)
  = flat_map (fun i => measurement_document r i (seeded_station r i) <$> seq 0 n) l.
Proof.
  induction l as [|i rest IH]; [reflexivity|].
  rewrite fmap_cons. cbn [flat_map]. rewrite IH. reflexivity.
Qed.

Lemma measurementsData_ids (l : list nat) (n : nat) :
  _id <$> flat_map (fun i => measurement_document r i (seeded_station r i) <$> seq 0 n) l
  = flat_map (fun i => measurement_oid r i <$> seq 0 n) l.
Proof.
  induction l as [|i rest IH]; [reflexivity|].
  cbn [flat_map]. rewrite fmap_app, IH, <- list_fmap_compose. reflexivity.
Qed.

Lemma measurementsData_length (l : list nat) (n : nat) :
  length (flat_map (fun i => measurement_document r i (seeded_station r i) <$> seq 0 n) l)
  = (length l * n)%nat.
Proof.
  induction l as [|i rest IH]; [reflexivity|].
  cbn [flat_map]. rewrite length_app, IH, length_fmap, length_seq. reflexivity.
Qed.


End Seeded.



